(** * GPT-OSS chat service: a shallow embedding and its checked properties

    The development follows the two source files of the repository:

    - [gptoss_model.py]: the tabular store ([load_csv_data] is I/O only and
      is represented by the loaded mapping), [search_csv_data],
      [analyze_image], the keyword responder [_generate_text_response], the
      two prompt builders and the dispatcher [generate_response];
    - [app.py]: [ChatSession.add_message], and the request handlers [chat]
      and [search_csv].

    Python values are modelled as follows.  A [str] is a [string] of
    8-bit characters (ASCII text; case mapping acts on the letters A-Z and
    a-z only).  Python integers are [Z], so that the result [-1] of a failed
    [str.find] and negative slice bounds are the ones of the source.  A
    [dict] whose iteration order matters (the table mapping, the trigger
    table, a row) is an association list; the session registry, which is
    only looked up and updated by key, is a [gmap].  Exceptions are the
    [Raise] branch of [result]. *)

From Stdlib Require Import ZArith List Bool Ascii String DecimalString.
From stdpp Require Import base option gmap strings.

Import ListNotations.
Local Open Scope string_scope.
Local Open Scope Z_scope.

(** ** Python string primitives *)

Module PyStr.

(** [len(s)] as a Python integer. *)
Definition len (s : string) : Z := Z.of_nat (String.length s).

(** One character of [str.lower()]. *)
Definition lower_char (c : ascii) : ascii :=
  let n := nat_of_ascii c in
  if ((65 <=? n) && (n <=? 90))%nat then ascii_of_nat (n + 32) else c.

(** [s.lower()]. *)
Fixpoint lower (s : string) : string :=
  match s with
  | EmptyString => EmptyString
  | String c s' => String (lower_char c) (lower s')
  end.

(** [s.startswith(p)]. *)
Fixpoint startswith (p s : string) : bool :=
  match p, s with
  | EmptyString, _ => true
  | String _ _, EmptyString => false
  | String a p', String b s' => Ascii.eqb a b && startswith p' s'
  end.

(** [k in s]: [k] occurs in [s] as a contiguous substring. *)
Fixpoint contains (k s : string) : bool :=
  startswith k s ||
  match s with
  | EmptyString => false
  | String _ s' => contains k s'
  end.

(** [s[n:]] for a natural [n]. *)
Fixpoint drop (n : nat) (s : string) : string :=
  match n, s with
  | O, _ => s
  | S _, EmptyString => EmptyString
  | S n', String _ s' => drop n' s'
  end.

(** [s[:n]] for a natural [n]. *)
Fixpoint take (n : nat) (s : string) : string :=
  match n, s with
  | O, _ => EmptyString
  | S _, EmptyString => EmptyString
  | S n', String c s' => String c (take n' s')
  end.

(** [s.endswith(p)]. *)
Definition endswith (p s : string) : bool :=
  (String.length p <=? String.length s)%nat &&
  String.eqb (drop (String.length s - String.length p) s) p.

(** Offset of the first occurrence of [k] in [s], counted from the head
    of [s]. *)
Fixpoint find_from (k s : string) : option nat :=
  if startswith k s then Some O
  else match s with
       | EmptyString => None
       | String _ s' => option_map S (find_from k s')
       end.

(** [s.find(k, start)] for [0 <= start]: the lowest index [>= start] at
    which [k] occurs, or [-1].  When [start > len(s)] Python answers [-1]
    even for the empty [k]. *)
Definition find (k s : string) (start : Z) : Z :=
  if len s <? start then -1
  else
    match find_from k (drop (Z.to_nat start) s) with
    | Some i => start + Z.of_nat i
    | None => -1
    end.

(** A slice bound as Python normalises it: a negative bound counts from
    the end, and the result is clamped to [0 .. len]. *)
Definition clamp (n i : Z) : Z :=
  let j := if i <? 0 then i + n else i in
  Z.max 0 (Z.min n j).

(** [s[start:stop]]. *)
Definition slice (s : string) (start stop : Z) : string :=
  let a := clamp (len s) start in
  let b := clamp (len s) stop in
  take (Z.to_nat (b - a)) (drop (Z.to_nat a) s).

(** [s[-n:]] on lists, for a positive literal [n]: the last [n] items. *)
Definition last_items {A} (n : nat) (l : list A) : list A :=
  skipn (List.length l - n) l.

(** [c.isspace()] on the ASCII range. *)
Definition isspace (c : ascii) : bool :=
  let n := nat_of_ascii c in
  ((9 <=? n) && (n <=? 13) || (28 <=? n) && (n <=? 32))%nat.

Fixpoint lstrip (s : string) : string :=
  match s with
  | EmptyString => EmptyString
  | String c s' => if isspace c then lstrip s' else s
  end.

Fixpoint rstrip (s : string) : string :=
  match s with
  | EmptyString => EmptyString
  | String c s' =>
      match rstrip s' with
      | EmptyString => if isspace c then EmptyString else String c EmptyString
      | r => String c r
      end
  end.

(** [s.strip()]. *)
Definition strip (s : string) : string := lstrip (rstrip s).

(** [str(n)] for a non-negative integer. *)
Definition str_nat (n : nat) : string :=
  NilEmpty.string_of_uint (Nat.to_uint n).

(** [os.path.basename(p)]: what follows the last slash. *)
Fixpoint basename (p : string) : string :=
  match p with
  | EmptyString => EmptyString
  | String c p' =>
      if contains "/" p then basename p' else p
  end.

(** [c] is one of the characters of [s]. *)
Fixpoint has_char (c : ascii) (s : string) : bool :=
  match s with
  | EmptyString => false
  | String a s' => Ascii.eqb a c || has_char c s'
  end.

End PyStr.

(** The line break ["\n"]. *)
Definition nl : string := String "010"%char EmptyString.

(** Truth value of a Python [str]: non-empty. *)
Definition truthy (s : string) : bool :=
  match s with
  | EmptyString => false
  | String _ _ => true
  end.

(** ** Exceptions *)

(** The outcome of a call that may raise; [Raise e] carries [str(e)]. *)
Inductive result (A : Type) : Type :=
| Ok (a : A)
| Raise (e : string).

Arguments Ok {A} a.
Arguments Raise {A} e.

(** ** Regular expressions, as [pandas] uses them

    [Series.str.contains(pat, case=False, na=False)] keeps its default
    [regex=True]: it calls [re.compile(pat, flags=re.IGNORECASE)] once and
    then tests [compiled.search(x) is not None] on every string of the
    column.  The engine is an interface with these two operations;
    [re_compile] raises where Python's [re.error] is raised. *)

Record RegexEngine : Type := {
  pattern : Type;
  re_compile : string -> bool -> result pattern;
  re_search : pattern -> string -> bool
}.

Module Re.

(** The characters that have a meaning of their own in a pattern. *)
Definition specials : string := ".^$*+?{}[]\|()".

Definition special (c : ascii) : bool := PyStr.has_char c specials.

(** A reference engine for the patterns made of ordinary characters and
    the wildcard [.]; it is the instance at which the examples are
    evaluated.  Every other pattern is refused by it. *)
Inductive atom : Type :=
| Lit (c : ascii)
| AnyChar.

Fixpoint parse (pat : string) : result (list atom) :=
  match pat with
  | EmptyString => Ok []
  | String c pat' =>
      match parse pat' with
      | Raise e => Raise e
      | Ok r =>
          if Ascii.eqb c "."%char then Ok (AnyChar :: r)
          else if special c then Raise "unsupported pattern"
          else Ok (Lit c :: r)
      end
  end.

Definition compile (pat : string) (ignorecase : bool)
  : result (bool * list atom) :=
  match parse pat with
  | Ok r => Ok (ignorecase, r)
  | Raise e => Raise e
  end.

(** [.] matches any character except a line break. *)
Definition atom_matches (ignorecase : bool) (a : atom) (c : ascii) : bool :=
  match a with
  | Lit x =>
      if ignorecase
      then Ascii.eqb (PyStr.lower_char x) (PyStr.lower_char c)
      else Ascii.eqb x c
  | AnyChar => negb (Ascii.eqb c "010"%char)
  end.

Fixpoint match_here (ignorecase : bool) (r : list atom) (s : string) : bool :=
  match r, s with
  | [], _ => true
  | _ :: _, EmptyString => false
  | a :: r', String c s' =>
      atom_matches ignorecase a c && match_here ignorecase r' s'
  end.

Fixpoint search_atoms (ignorecase : bool) (r : list atom) (s : string) : bool :=
  match_here ignorecase r s ||
  match s with
  | EmptyString => false
  | String _ s' => search_atoms ignorecase r s'
  end.

Definition search (p : bool * list atom) (s : string) : bool :=
  search_atoms (fst p) (snd p) s.

Definition engine : RegexEngine :=
  {| pattern := bool * list atom; re_compile := compile; re_search := search |}.

End Re.

(** ** Tables, as [pandas.read_csv] loads them *)

(** A value of a row: a string, a number, a truth value, or the missing
    value [nan]. *)
Inductive value : Type :=
| VStr (s : string)
| VNum (z : Z)
| VBool (b : bool)
| VNaN.

(** A column with its dtype.  An [object] column holds values of any
    kind: [read_csv] gives this dtype to a column of text, with or without
    missing values, and also to a column of truth values with a missing
    value, or of values of several kinds.  The other columns hold
    numbers. *)
Inductive Series : Type :=
| ObjectSeries (values : list value)
| NumericSeries (values : list (option Z)).

Definition series_at (ser : Series) (i : nat) : value :=
  match ser with
  | ObjectSeries values =>
      match nth_error values i with
      | Some v => v
      | None => VNaN
      end
  | NumericSeries values =>
      match nth_error values i with
      | Some (Some z) => VNum z
      | _ => VNaN
      end
  end.

(** A data frame: its columns in order, each with its name.  The columns
    of a frame have the same length; a position past the end of a column
    reads as [nan], and no row of [df[mask]] is at such a position. *)
Record DataFrame : Type := { columns : list (string * Series) }.

(** [row.to_dict()] for the row at position [i]. *)
Definition row_to_dict (df : DataFrame) (i : nat) : list (string * value) :=
  map (fun c => (fst c, series_at (snd c) i)) (columns df).

Definition is_missing (v : value) : bool :=
  match v with VNaN => true | _ => false end.

Definition is_number (v : value) : bool :=
  match v with VNum _ => true | _ => false end.

Definition is_truth (v : value) : bool :=
  match v with VBool _ => true | _ => false end.

(** Whether [pandas] grants the accessor [.str] to an [object] column.
    It infers the kind of the values that are not missing and refuses,
    with an [AttributeError], a column whose values are all numbers or all
    truth values; a column of strings, a column of missing values only and
    a column of several kinds are accepted. *)
Definition str_accessor_ok (values : list value) : bool :=
  let present := List.filter (fun v => negb (is_missing v)) values in
  match present with
  | [] => true
  | _ :: _ => negb (forallb is_number present || forallb is_truth present)
  end.

(** [Series.str.contains(pat, case, na)] with the default [regex=True]:
    the accessor is checked first, then the pattern is compiled; a value
    that is not a string gives [na]. *)
Definition str_contains (E : RegexEngine) (pat : string) (case na : bool)
    (values : list value) : result (list bool) :=
  if str_accessor_ok values then
    match re_compile E pat (negb case) with
    | Raise e => Raise e
    | Ok r =>
        Ok (map (fun v => match v with
                          | VStr s => re_search E r s
                          | _ => na
                          end) values)
    end
  else Raise "Can only use .str accessor with string values!".

(** The positions of the rows kept by [df[mask]], counted from [i]. *)
Fixpoint selected (mask : list bool) (i : nat) : list nat :=
  match mask with
  | [] => []
  | b :: mask' => if b then i :: selected mask' (S i) else selected mask' (S i)
  end.

(** ** [gptoss_model.py] *)

Record SearchHit : Type := {
  file : string;
  column : string;
  data : list (string * value)
}.

(** The model object; of its fields only [csv_data] is ever read. *)
Record GPTOSSModel : Type := { csv_data : list (string * DataFrame) }.

(** What the program sees of the file system: [os.path.exists] and the
    outcome of opening a path and reading it as text. *)
Record FileSystem : Type := {
  path_exists : string -> bool;
  read_text : string -> result string
}.

Section Model.

Variable E : RegexEngine.

(** [str(d)] of a row dictionary; the number formatting of Python is not
    part of the model. *)
Variable str_of_dict : list (string * value) -> string.

(** The body of the [try] of [search_csv_data] for one table: the columns
    are visited in order, and an exception, of the accessor or of the
    pattern, leaves the loop with the hits appended so far, so that the
    later columns of the table are not searched. *)
Fixpoint search_columns (filename : string) (df : DataFrame)
    (cols : list (string * Series)) (query : string)
    (results : list SearchHit) : list SearchHit :=
  match cols with
  | [] => results
  | (col, ObjectSeries values) :: cols' =>
      match str_contains E query false false values with
      | Ok mask =>
          search_columns filename df cols' query
            (results ++
             map (fun i => {| file := filename; column := col;
                              data := row_to_dict df i |})
                 (selected mask 0))
      | Raise _ => results
      end
  | (_, NumericSeries _) :: cols' =>
      search_columns filename df cols' query results
  end.

Definition search_csv_data (self : GPTOSSModel) (query : string)
  : list SearchHit :=
  fold_left
    (fun results t => search_columns (fst t) (snd t) (columns (snd t)) query results)
    (csv_data self) [].

Definition analyze_image (fs : FileSystem) (image_path : string) : string :=
  if PyStr.endswith ".txt" image_path then
    match read_text fs image_path with
    | Ok content =>
        if PyStr.contains "Description:" content then
          let desc_start :=
            PyStr.find "Description:" content 0 + PyStr.len "Description:" in
          let desc_end := PyStr.find nl content desc_start in
          PyStr.strip (PyStr.slice content desc_start desc_end)
        else "Image placeholder file"
    | Raise e => "Error analyzing image: " ++ e
    end
  else "Analyzed image: " ++ PyStr.basename image_path.

Definition hello_reply : string :=
  "Hello! I'm your GPT-OSS assistant. How can I help you today?".

Definition hi_reply : string :=
  "Hi there! I can help you analyze data, images, and answer questions.".

Definition help_reply : string :=
  "I can:" ++ nl ++ "• Analyze CSV data" ++ nl ++ "• Process images" ++ nl
  ++ "• Answer questions" ++ nl ++ "• Provide Earth Observation insights".

Definition what_reply : string :=
  "I'm a multimodal AI assistant that can:" ++ nl
  ++ "📊 Analyze CSV data" ++ nl
  ++ "🖼️ Process and describe images" ++ nl
  ++ "🌍 Provide Earth Observation analysis" ++ nl
  ++ "💬 Answer questions using available data".

(** The trigger table, in the order of the dictionary literal. *)
Definition responses : list (string * string) :=
  [ ("hello", hello_reply);
    ("hi", hi_reply);
    ("help", help_reply);
    ("what can you do", what_reply) ].

(** The loop over [responses.items()]: the first key found in the input. *)
Fixpoint first_response (table : list (string * string)) (lower_input : string)
  : option string :=
  match table with
  | [] => None
  | (key, response) :: table' =>
      if PyStr.contains key lower_input then Some response
      else first_response table' lower_input
  end.

Definition _generate_text_response (text_input : string) : string :=
  let lower_input := PyStr.lower text_input in
  match first_response responses lower_input with
  | Some response => response
  | None =>
      "I understand you're asking about: " ++ text_input
      ++ ". I can help you analyze this using available data and models."
  end.

(** The lines added to [csv_context] by the loop over
    [enumerate(csv_results[:3])], from index [i] on. *)
Fixpoint context_lines (i : nat) (results : list SearchHit) : string :=
  match results with
  | [] => EmptyString
  | r :: results' =>
      PyStr.str_nat (i + 1) ++ ". From " ++ file r ++ ": "
      ++ str_of_dict (data r) ++ nl ++ context_lines (S i) results'
  end.

Definition csv_context (csv_results : list SearchHit) : string :=
  "Relevant data found:" ++ nl ++ context_lines 0 (firstn 3 csv_results).

Definition csv_prompt (text_input : string) (csv_results : list SearchHit)
    (image_analysis : string) : string :=
  "Based on the following data and context:" ++ nl ++ nl
  ++ csv_context csv_results ++ nl ++ nl
  ++ "Image Analysis: " ++ image_analysis ++ nl ++ nl
  ++ "User Question: " ++ text_input ++ nl ++ nl
  ++ "Please provide a helpful response using the available data.".

Definition _generate_response_with_csv (text_input : string)
    (csv_results : list SearchHit) (image_analysis : string) : string :=
  _generate_text_response (csv_prompt text_input csv_results image_analysis).

Definition _generate_response_with_image (text_input image_analysis : string)
  : string :=
  _generate_text_response
    ("Image Analysis: " ++ image_analysis ++ nl ++ nl
     ++ "User Question: " ++ text_input ++ nl ++ nl
     ++ "Please provide a response based on the image analysis.").

(** The hits that [generate_response] works with. *)
Definition csv_results_of (self : GPTOSSModel) (text_input : string)
    (use_csv : bool) : list SearchHit :=
  match use_csv, csv_data self with
  | true, _ :: _ => search_csv_data self text_input
  | _, _ => []
  end.

(** The image description that [generate_response] works with. *)
Definition image_analysis_of (fs : FileSystem) (image_path : option string)
  : string :=
  match image_path with
  | Some p =>
      if truthy p && path_exists fs p then analyze_image fs p else EmptyString
  | None => EmptyString
  end.

Definition generate_response (self : GPTOSSModel) (fs : FileSystem)
    (text_input : string) (image_path : option string) (use_csv : bool)
  : string :=
  let csv_results := csv_results_of self text_input use_csv in
  let image_analysis := image_analysis_of fs image_path in
  match csv_results with
  | _ :: _ => _generate_response_with_csv text_input csv_results image_analysis
  | [] =>
      if truthy image_analysis
      then _generate_response_with_image text_input image_analysis
      else _generate_text_response text_input
  end.

End Model.

(** ** [app.py] *)

Inductive Role : Type := user | assistant.

(** A reading of [datetime.now()], by the two renderings the program
    takes of it: [strftime('%Y%m%d_%H%M%S')] and
    [strftime("%Y-%m-%d %H:%M:%S")]. *)
Record datetime : Type := { compact : string; readable : string }.

Record Message : Type := {
  role : Role;
  content : string;
  timestamp : string;
  image_path : option string;
  csv_used : bool
}.

Record ChatSession : Type := {
  session_id : string;
  messages : list Message;
  created_at : datetime
}.

Definition new_session (sid : string) (now : datetime) : ChatSession :=
  {| session_id := sid; messages := []; created_at := now |}.

(** [ChatSession.add_message]; [now] is the clock reading taken inside. *)
Definition add_message (self : ChatSession) (now : datetime) (r : Role)
    (text : string) (path : option string) (used : bool) : ChatSession :=
  let message :=
    {| role := r; content := text; timestamp := readable now;
       image_path := path; csv_used := used |} in
  let appended := (messages self ++ [message])%list in
  {| session_id := session_id self;
     messages :=
       if (50 <? List.length appended)%nat
       then PyStr.last_items 50 appended
       else appended;
     created_at := created_at self |}.

(** An uploaded file of [request.files]. *)
Record FileStorage : Type := { filename : string; payload : string }.

(** A file object is true when it has a file name. *)
Definition file_truthy (f : option FileStorage) : bool :=
  match f with
  | Some f => truthy (filename f)
  | None => false
  end.

(** A POST to [/chat]: the session cookie and the form. *)
Record ChatRequest : Type := {
  cookie_session_id : option string;
  form_message : option string;
  files_image : option FileStorage;
  form_use_csv : option string
}.

(** The clock readings of one call of [chat], in program order. *)
Record Clock : Type := {
  at_session : datetime;
  at_upload : datetime;
  at_user_turn : datetime;
  at_assistant_turn : datetime
}.

(** The state the handlers share. *)
Record World : Type := {
  chat_sessions : gmap string ChatSession;
  files : FileSystem
}.

Inductive ReplyBody : Type :=
| ErrorReply (error : string)
| ChatReply (success : bool) (response : string) (sid : string)
    (message_count : nat) (used : bool)
| ResultsReply (results : list SearchHit).

Record Response : Type := { body : ReplyBody; status : nat }.

(** [os.path.join(a, b)] for a non-empty [a] without a final slash. *)
Definition path_join (a b : string) : string :=
  if PyStr.startswith "/" b then b else a ++ "/" ++ b.

(** A file system that holds what [fs] holds and, at [path], a file whose
    reading as text gives [content]; it serves to build examples. *)
Definition with_text_file (fs : FileSystem) (path content : string)
  : FileSystem :=
  {| path_exists := fun p => if String.eqb p path then true else path_exists fs p;
     read_text := fun p => if String.eqb p path then Ok content else read_text fs p |}.

(** The registry entry under key [sid] after the session object it holds
    was updated in place. *)
Definition store (w : World) (sid : string) (cs : ChatSession) : World :=
  {| chat_sessions := <[sid := cs]> (chat_sessions w); files := files w |}.

(** [request.form.get('message', '').strip()]. *)
Definition request_message (req : ChatRequest) : string :=
  PyStr.strip (match form_message req with Some m => m | None => "" end).

(** [request.form.get('use_csv', 'false').lower() == 'true']. *)
Definition request_use_csv (req : ChatRequest) : bool :=
  String.eqb
    (PyStr.lower (match form_use_csv req with Some v => v | None => "false" end))
    "true".

Section Handlers.

(** The global [gptoss_model], by the two methods the handlers call. *)
Variable gptoss_generate_response :
  FileSystem -> string -> option string -> bool -> result string.
Variable gptoss_search_csv_data : string -> result (list SearchHit).

(** What [chat] asks of the environment for an upload:
    [os.makedirs('static/uploads', exist_ok=True)] and then
    [image_file.save(path)], for a path and the uploaded content.  The
    answer is the file system afterwards and whether an exception was
    raised, as [save] does when the directory of the path is missing. *)
Variable save_upload : FileSystem -> string -> string -> FileSystem * result unit.

(** The upload step of [chat]: the file system afterwards, and the path
    the image was saved under, if any, or the exception raised. *)
Definition upload (fs : FileSystem) (now : datetime) (sid : string)
    (image_file : option FileStorage) : FileSystem * result (option string) :=
  match image_file with
  | Some f =>
      if truthy (filename f) then
        let name := sid ++ "_" ++ compact now ++ "_" ++ filename f in
        let path := path_join "static/uploads" name in
        match save_upload fs path (payload f) with
        | (fs', Ok _) => (fs', Ok (Some path))
        | (fs', Raise e) => (fs', Raise e)
        end
      else (fs, Ok None)
  | None => (fs, Ok None)
  end.

(** The part of [chat] that follows the validation of the input.  The
    upload step is outside the [try]: its exception leaves the handler
    before any turn is added. *)
Definition chat_turn (w : World) (clock : Clock) (sid : string)
    (cs : ChatSession) (user_message : string)
    (image_file : option FileStorage) (use_csv : bool)
  : World * result Response :=
  match upload (files w) (at_upload clock) sid image_file with
  | (fs, Raise e) => ({| chat_sessions := chat_sessions w; files := fs |}, Raise e)
  | (fs, Ok path) =>
      let cs1 :=
        add_message cs (at_user_turn clock) user user_message path false in
      let w1 := store {| chat_sessions := chat_sessions w; files := fs |} sid cs1 in
      match gptoss_generate_response fs user_message path use_csv with
      | Ok reply =>
          let cs2 :=
            add_message cs1 (at_assistant_turn clock) assistant reply None
              use_csv in
          (store w1 sid cs2,
           Ok {| body := ChatReply true reply sid (List.length (messages cs2))
                           use_csv;
                 status := 200 |})
      | Raise e =>
          let error_msg := "Error generating response: " ++ e in
          let cs2 :=
            add_message cs1 (at_assistant_turn clock) assistant error_msg None
              false in
          (store w1 sid cs2,
           Ok {| body := ErrorReply error_msg; status := 500 |})
      end
  end.

(** The registry after [chat] made sure that [sid] has a session. *)
Definition ensure_session (w : World) (now : datetime) (sid : string) : World :=
  match chat_sessions w !! sid with
  | Some _ => w
  | None => store w sid (new_session sid now)
  end.

(** [chat]: the state afterwards, and the reply or the exception that
    leaves the handler. *)
Definition chat (w : World) (clock : Clock) (req : ChatRequest)
  : World * result Response :=
  match cookie_session_id req with
  | None => (w, Ok {| body := ErrorReply "No session found"; status := 400 |})
  | Some sid =>
      let w0 := ensure_session w (at_session clock) sid in
      (* chat_sessions[session_id]: the key is present in [w0] *)
      let chat_session :=
        match chat_sessions w0 !! sid with
        | Some cs => cs
        | None => new_session sid (at_session clock)
        end in
      let user_message := request_message req in
      let image_file := files_image req in
      let use_csv := request_use_csv req in
      if negb (truthy user_message) && negb (file_truthy image_file)
      then (w0, Ok {| body := ErrorReply "No message or image provided";
                      status := 400 |})
      else chat_turn w0 clock sid chat_session user_message image_file use_csv
  end.

(** [search_csv]: the query is [request.args.get('q', '')]; an exception
    of the search is not caught by the handler. *)
Definition search_csv (q : option string) : result Response :=
  let query := match q with Some v => v | None => "" end in
  if negb (truthy query)
  then Ok {| body := ResultsReply []; status := 200 |}
  else
    match gptoss_search_csv_data query with
    | Ok results =>
        Ok {| body := ResultsReply (firstn 10 results); status := 200 |}
    | Raise e => Raise e
    end.

End Handlers.

(** The handlers' view of a model object. *)
Definition model_generate_response (E : RegexEngine)
    (str_of_dict : list (string * value) -> string) (self : GPTOSSModel)
    (fs : FileSystem) (text_input : string) (path : option string)
    (use_csv : bool) : result string :=
  Ok (generate_response E str_of_dict self fs text_input path use_csv).

Definition model_search_csv_data (E : RegexEngine) (self : GPTOSSModel)
    (query : string) : result (list SearchHit) :=
  Ok (search_csv_data E self query).

(** ** Vocabulary of the statements *)

(** [s.partition(k)] when [k] occurs: the text before the first
    occurrence of [k] and the text after it. *)
Fixpoint partition (k s : string) : option (string * string) :=
  if PyStr.startswith k s
  then Some (EmptyString, PyStr.drop (String.length k) s)
  else match s with
       | EmptyString => None
       | String c s' =>
           match partition k s' with
           | Some (a, b) => Some (String c a, b)
           | None => None
           end
       end.

(** All but the final character. *)
Fixpoint drop_last (s : string) : string :=
  match s with
  | EmptyString => EmptyString
  | String c EmptyString => EmptyString
  | String c s' => String c (drop_last s')
  end.

(** [q] occurs in [s] when letter case is ignored. *)
Definition ci_contains (q s : string) : bool :=
  PyStr.contains (PyStr.lower q) (PyStr.lower s).

(** A query without any character that a pattern gives a meaning to. *)
Fixpoint plain (q : string) : bool :=
  match q with
  | EmptyString => true
  | String c q' => negb (Re.special c) && plain q'
  end.

(** What the search relies on for plain queries: such a query compiles,
    and under [IGNORECASE] it is found in exactly the strings that contain
    it when case is ignored. *)
Definition literal_sound (E : RegexEngine) : Prop :=
  forall q, plain q = true ->
    exists r, re_compile E q true = Ok r /\
              forall s, re_search E r s = ci_contains q s.

(** The atoms of a plain query: one literal per character. *)
Fixpoint literal_atoms (q : string) : list Re.atom :=
  match q with
  | EmptyString => []
  | String c q' => Re.Lit c :: literal_atoms q'
  end.

(** The hit reported for row [i] of a table on account of column [col]. *)
Definition hit_at (fname : string) (df : DataFrame) (col : string) (i : nat)
  : SearchHit :=
  {| file := fname; column := col; data := row_to_dict df i |}.

(** Row [i] of the [object] column [col] of table [fname] holds [s]. *)
Definition text_value (self : GPTOSSModel) (fname : string) (df : DataFrame)
    (col : string) (i : nat) (s : string) : Prop :=
  In (fname, df) (csv_data self) /\
  exists values, In (col, ObjectSeries values) (columns df) /\
                 nth_error values i = Some (VStr s).

(** The columns of a table that the loop of [search_csv_data] reaches:
    those before the first [object] column that is refused the accessor
    [.str]. *)
Fixpoint reached (cols : list (string * Series)) : list (string * Series) :=
  match cols with
  | [] => []
  | (col, ObjectSeries values) :: cols' =>
      if str_accessor_ok values
      then (col, ObjectSeries values) :: reached cols'
      else []
  | (col, NumericSeries values) :: cols' =>
      (col, NumericSeries values) :: reached cols'
  end.

(** Row [i] of the [object] column [col] of table [fname] holds [s], and
    the search reaches that column. *)
Definition text_value_reached (self : GPTOSSModel) (fname : string)
    (df : DataFrame) (col : string) (i : nat) (s : string) : Prop :=
  In (fname, df) (csv_data self) /\
  exists values, In (col, ObjectSeries values) (reached (columns df)) /\
                 nth_error values i = Some (VStr s).

(** The hits of one [object] column for the rows whose string satisfies
    [test]. *)
Definition column_hits (test : string -> bool) (fname : string)
    (df : DataFrame) (c : string * Series) : list SearchHit :=
  match snd c with
  | ObjectSeries values =>
      map (hit_at fname df (fst c))
        (selected (map (fun v => match v with
                                 | VStr s => test s
                                 | _ => false
                                 end) values) 0)
  | NumericSeries _ => []
  end.

(** One hit per string that satisfies [test] in every [object] column
    that the search reaches, in table order, then column order, then row
    order. *)
Definition hits_where (test : string -> bool) (self : GPTOSSModel)
  : list SearchHit :=
  flat_map (fun t => flat_map (column_hits test (fst t) (snd t))
                       (reached (columns (snd t))))
    (csv_data self).

(** The number of strings of a column that satisfy [test]. *)
Definition count_matching (test : string -> bool) (values : list value) : nat :=
  List.length
    (List.filter (fun v => match v with
                           | VStr s => test s
                           | _ => false
                           end) values).

(** The number of strings that satisfy [test] in the [object] columns
    that the search reaches, over all tables. *)
Definition matches_where (test : string -> bool) (self : GPTOSSModel) : nat :=
  list_sum
    (map (fun t =>
            list_sum
              (map (fun c => match snd c with
                             | ObjectSeries values => count_matching test values
                             | NumericSeries _ => 0%nat
                             end)
                 (reached (columns (snd t)))))
       (csv_data self)).

(** The arguments of one call of [add_message]. *)
Record Turn : Type := {
  turn_now : datetime;
  turn_role : Role;
  turn_text : string;
  turn_path : option string;
  turn_used : bool
}.

Definition message_of (t : Turn) : Message :=
  {| role := turn_role t; content := turn_text t;
     timestamp := readable (turn_now t);
     image_path := turn_path t; csv_used := turn_used t |}.

Definition append_turn (cs : ChatSession) (t : Turn) : ChatSession :=
  add_message cs (turn_now t) (turn_role t) (turn_text t) (turn_path t)
    (turn_used t).

(** The session after the turns [ts] were appended one after the other. *)
Definition append_turns (cs : ChatSession) (ts : list Turn) : ChatSession :=
  fold_left append_turn ts cs.

(** The numbered lines that stand for the first three hits in the
    prompt. *)
Definition stringified_hits (str_of_dict : list (string * value) -> string)
    (csv_results : list SearchHit) : string :=
  context_lines str_of_dict 0 (firstn 3 csv_results).

(** The default reply for an input that triggers no canned reply. *)
Definition default_echo (text_input : string) : string :=
  "I understand you're asking about: " ++ text_input
  ++ ". I can help you analyze this using available data and models.".

(** ** Sample data *)

Definition epoch : datetime :=
  {| compact := "20240101_000000"; readable := "2024-01-01 00:00:00" |}.

Definition sample_clock : Clock :=
  {| at_session := epoch; at_upload := epoch; at_user_turn := epoch;
     at_assistant_turn := epoch |}.

Definition sample_frame : DataFrame :=
  {| columns := [ ("name", ObjectSeries [VStr "abc"; VNaN; VStr "Delta"]);
                  ("count", NumericSeries [Some 1; Some 2; None]) ] |}.

Definition sample_model : GPTOSSModel :=
  {| csv_data := [("items.csv", sample_frame)] |}.

(** A table whose first [object] column holds truth values and a missing
    value, before a column of text. *)
Definition mixed_frame : DataFrame :=
  {| columns := [ ("open", ObjectSeries [VBool true; VNaN]);
                  ("city", ObjectSeries [VStr "Paris"; VStr "Rome"]) ] |}.

Definition mixed_model : GPTOSSModel :=
  {| csv_data := [("mixed.csv", mixed_frame); ("items.csv", sample_frame)] |}.

Definition sample_str_of_dict (d : list (string * value)) : string :=
  "{" ++ String.concat ", " (map (fun kv => "'" ++ fst kv ++ "'") d) ++ "}".

Definition no_files : FileSystem :=
  {| path_exists := fun _ => false;
     read_text := fun _ => Raise "[Errno 2] No such file or directory" |}.

Definition placeholder_files : FileSystem :=
  with_text_file no_files "static/uploads/shot.txt" "Description: a cat".

Definition empty_world : World :=
  {| chat_sessions := ∅; files := no_files |}.

Definition sample_session : ChatSession := new_session "s1" epoch.

Definition sample_world : World := store empty_world "s1" sample_session.

Definition sample_turn (n : nat) : Turn :=
  {| turn_now := epoch; turn_role := user; turn_text := PyStr.str_nat n;
     turn_path := None; turn_used := false |}.

Definition failing_generator (_ : FileSystem) (_ : string) (_ : option string)
    (_ : bool) : result string :=
  Raise "out of memory".

Definition sample_request : ChatRequest :=
  {| cookie_session_id := Some "s1"; form_message := Some " abc ";
     files_image := None; form_use_csv := Some "True" |}.

Definition blank_request : ChatRequest :=
  {| cookie_session_id := Some "s1"; form_message := Some "   ";
     files_image := Some {| filename := ""; payload := "" |};
     form_use_csv := None |}.

(** ** The rest of [gptoss_model.py] and [app.py] *)

(** The prompt of [_generate_response_with_image]. *)
Definition image_prompt (text_input image_analysis : string) : string :=
  "Image Analysis: " ++ image_analysis ++ nl ++ nl
  ++ "User Question: " ++ text_input ++ nl ++ nl
  ++ "Please provide a response based on the image analysis.".

(** What [load_csv_data] sees of the directory [data]: whether it exists,
    the outcome of [os.listdir], and the outcome of [pd.read_csv] on each
    of its files. *)
Record DataDir : Type := {
  dir_exists : bool;
  listdir : result (list string);
  read_csv : string -> result DataFrame
}.

(** [d[k] = v] on a dictionary kept in insertion order: a key that is
    present keeps its place. *)
Fixpoint dict_set {V : Type} (k : string) (v : V) (d : list (string * V))
  : list (string * V) :=
  match d with
  | [] => [(k, v)]
  | (k', v') :: d' =>
      if String.eqb k' k then (k, v) :: d' else (k', v') :: dict_set k v d'
  end.

(** The body of the loop of [load_csv_data] for one directory entry: a
    file that [read_csv] rejects is reported and left out. *)
Definition load_file (dir : DataDir) (csv : list (string * DataFrame))
    (file : string) : list (string * DataFrame) :=
  if PyStr.endswith ".csv" file then
    match read_csv dir file with
    | Ok df => dict_set file df csv
    | Raise _ => csv
    end
  else csv.

(** [load_csv_data]: the mapping read, and the directory afterwards (a
    missing directory is created, empty).  An exception of [os.listdir] is
    not caught here. *)
Definition load_csv_data (dir : DataDir)
  : result (list (string * DataFrame) * DataDir) :=
  if dir_exists dir then
    match listdir dir with
    | Ok entries => Ok (fold_left (load_file dir) entries [], dir)
    | Raise e => Raise e
    end
  else
    Ok ([], {| dir_exists := true; listdir := Ok []; read_csv := read_csv dir |}).

(** [home]: [fresh] is the value of [str(uuid.uuid4())] and [now] the
    clock reading of the new session.  The result is the state and the
    session cookie afterwards; the page rendered is not part of the
    model. *)
Definition home (w : World) (cookie : option string) (fresh : string)
    (now : datetime) : World * option string :=
  match cookie with
  | Some sid => (w, Some sid)
  | None => (store w fresh (new_session fresh now), Some fresh)
  end.

(** [get_history]: the [messages] field of the reply. *)
Definition get_history (w : World) (cookie : option string) : list Message :=
  match cookie with
  | None => []
  | Some sid =>
      match chat_sessions w !! sid with
      | Some cs => messages cs
      | None => []
      end
  end.

(** [clear_history]: the state afterwards; the reply is always
    [{'success': True}]. *)
Definition clear_history (w : World) (cookie : option string) : World :=
  match cookie with
  | None => w
  | Some sid =>
      match chat_sessions w !! sid with
      | Some cs =>
          store w sid {| session_id := session_id cs; messages := [];
                         created_at := created_at cs |}
      | None => w
      end
  end.






(** The two turns that a call of [chat] records when the input is
    accepted and the generator returns [reply]. *)
Definition user_turn (clock : Clock) (req : ChatRequest)
    (path : option string) : Message :=
  {| role := user; content := request_message req;
     timestamp := readable (at_user_turn clock);
     image_path := path; csv_used := false |}.

Definition assistant_turn (clock : Clock) (req : ChatRequest)
    (reply : string) : Message :=
  {| role := assistant; content := reply;
     timestamp := readable (at_assistant_turn clock);
     image_path := None; csv_used := request_use_csv req |}.

(** What the loop of [load_csv_data] keeps true of the mapping once it
    has seen the entries [seen]. *)
Definition loaded_from (dir : DataDir) (seen : list string)
    (csv : list (string * DataFrame)) : Prop :=
  NoDup (map fst csv) /\
  forall f df,
    In (f, df) csv
    <-> In f seen /\ PyStr.endswith ".csv" f = true /\ read_csv dir f = Ok df.

(** The word [k] occurs, letter case ignored, in one of the three
    variable parts of a prompt. *)
Definition occurs_in_parts (k lines image_analysis text_input : string)
  : bool :=
  PyStr.contains k (PyStr.lower lines)
  || (PyStr.contains k (PyStr.lower image_analysis)
      || PyStr.contains k (PyStr.lower text_input)).

(** Every session of the registry is filed under its own identifier and
    holds at most 50 turns. *)
Definition well_kept (w : World) : Prop :=
  forall sid cs,
    chat_sessions w !! sid = Some cs ->
    session_id cs = sid /\ (List.length (messages cs) <= 50)%nat.

(** More sample data. *)
Definition sample_dir : DataDir :=
  {| dir_exists := true;
     listdir := Ok ["items.csv"; "notes.txt"; "broken.csv"];
     read_csv := fun f => if String.eqb f "items.csv" then Ok sample_frame
                          else Raise "Error tokenizing data" |}.

Definition upload_request : ChatRequest :=
  {| cookie_session_id := Some "s1"; form_message := Some "look";
     files_image := Some {| filename := "shot.png"; payload := "PNG" |};
     form_use_csv := None |}.

Definition echo_generator (_ : FileSystem) (text : string)
    (_ : option string) (_ : bool) : result string :=
  Ok text.

(** A disk on which the directory of the uploads has no directory below
    it: a write there succeeds unless the name holds a slash. *)
Definition sample_disk (fs : FileSystem) (path content : string)
  : FileSystem * result unit :=
  if PyStr.startswith "static/uploads/" path
     && negb (PyStr.contains "/" (PyStr.drop 15 path))
  then (with_text_file fs path content, Ok tt)
  else (fs, Raise "[Errno 2] No such file or directory").

Definition nested_upload_request : ChatRequest :=
  {| cookie_session_id := Some "s1"; form_message := Some "look";
     files_image := Some {| filename := "a/b.png"; payload := "PNG" |};
     form_use_csv := None |}.

(** * Properties *)

(** ** Strings *)

Section StringFacts.

Import PyStr.

#[local] Arguments String.append !s1 s2 : simpl nomatch.

Lemma append_assoc (a b c : string) : (a ++ b) ++ c = a ++ (b ++ c).
Proof. induction a as [|x a IH]; simpl; [reflexivity | now rewrite IH]. Qed.


Lemma length_append (a b : string) :
  String.length (a ++ b) = (String.length a + String.length b)%nat.
Proof. induction a as [|x a IH]; simpl; [reflexivity | now rewrite IH]. Qed.

Lemma lower_append (a b : string) : lower (a ++ b) = lower a ++ lower b.
Proof. induction a as [|x a IH]; simpl; [reflexivity | now rewrite IH]. Qed.

Lemma startswith_empty (s : string) : startswith "" s = true.
Proof. destruct s; reflexivity. Qed.

Lemma startswith_append (k s : string) : startswith k (k ++ s) = true.
Proof.
  induction k as [|x k IH]; simpl.
  - reflexivity.
  - now rewrite Ascii.eqb_refl, IH.
Qed.

Lemma startswith_split (k s : string) :
  startswith k s = true -> s = k ++ drop (String.length k) s.
Proof.
  revert s; induction k as [|x k IH]; intros s H.
  - reflexivity.
  - destruct s as [|y s]; simpl in H; [discriminate|].
    apply andb_true_iff in H as [Hxy Hk].
    apply Ascii.eqb_eq in Hxy; subst y.
    simpl. now rewrite <- (IH s Hk).
Qed.

Lemma contains_startswith (k s : string) :
  startswith k s = true -> contains k s = true.
Proof. intros H. destruct s; simpl in *; rewrite H; reflexivity. Qed.

Lemma contains_cons (k : string) (c : ascii) (s : string) :
  contains k s = true -> contains k (String c s) = true.
Proof. intros H. simpl. rewrite H. apply orb_true_r. Qed.

Lemma contains_append_r (k a b : string) :
  contains k b = true -> contains k (a ++ b) = true.
Proof.
  intros H. induction a as [|x a IH]; simpl; [exact H|].
  rewrite IH. apply orb_true_r.
Qed.

Lemma startswith_append_l (k a b : string) :
  startswith k a = true -> startswith k (a ++ b) = true.
Proof.
  revert a; induction k as [|x k IH]; intros a H.
  - apply startswith_empty.
  - destruct a as [|y a]; simpl in *; [discriminate|].
    apply andb_true_iff in H as [Hxy Hk].
    now rewrite Hxy, (IH a Hk).
Qed.

Lemma contains_append_l (k a b : string) :
  contains k a = true -> contains k (a ++ b) = true.
Proof.
  induction a as [|x a IH]; intros H.
  - simpl in H. rewrite orb_false_r in H.
    apply contains_startswith.
    now apply (startswith_append_l k "" b).
  - simpl in H. apply orb_true_iff in H as [H|H].
    + apply contains_startswith. now apply (startswith_append_l k (String x a) b).
    + simpl. rewrite (IH H). apply orb_true_r.
Qed.

(** An occurrence of [k] is a way to write [s] around [k]. *)
Lemma contains_spec (k s : string) :
  contains k s = true <-> exists a b, s = a ++ k ++ b.
Proof.
  split.
  - induction s as [|x s IH]; simpl; intros H.
    + rewrite orb_false_r in H. exists "", "".
      destruct k; [reflexivity | discriminate].
    + apply orb_true_iff in H as [H|H].
      * exists "", (drop (String.length k) (String x s)).
        now apply startswith_split in H.
      * destruct (IH H) as (a & b & ->). now exists (String x a), b.
  - intros (a & b & ->).
    apply contains_append_r, contains_startswith, startswith_append.
Qed.

(** A character that is not in [k] cannot be inside an occurrence of
    [k]. *)
Lemma startswith_across (k a b : string) (c : ascii) :
  has_char c k = false ->
  startswith k (a ++ String c b) = startswith k a.
Proof.
  revert a; induction k as [|x k IH]; intros a H.
  - now rewrite !startswith_empty.
  - simpl in H. apply orb_false_iff in H as [Hx Hk].
    destruct a as [|y a]; simpl.
    + rewrite Hx. reflexivity.
    + now rewrite (IH a Hk).
Qed.

Lemma contains_across (k a b : string) (c : ascii) :
  has_char c k = false ->
  contains k (a ++ String c b) = contains k a || contains k b.
Proof.
  intros Hc. induction a as [|y a IH].
  - pose proof (startswith_across k "" b c Hc) as Hs.
    simpl in Hs |- *. now rewrite Hs, orb_false_r.
  - change (contains k (String y a ++ String c b))
      with (startswith k (String y a ++ String c b)
            || contains k (a ++ String c b)).
    rewrite (startswith_across k (String y a) b c Hc), IH.
    change (contains k (String y a))
      with (startswith k (String y a) || contains k a).
    now rewrite orb_assoc.
Qed.

End StringFacts.

(** ** The session store: [ChatSession.add_message] *)

Section SessionFacts.

Import PyStr.

Lemma last_items_all {A} (n : nat) (l : list A) :
  (length l <= n)%nat -> last_items n l = l.
Proof.
  intros H. unfold last_items.
  now replace (length l - n)%nat with 0%nat by lia.
Qed.

Lemma last_items_length {A} (n : nat) (l : list A) :
  length (last_items n l) = Nat.min n (length l).
Proof. unfold last_items. rewrite length_skipn. lia. Qed.

Lemma last_items_suffix {A} (n : nat) (l : list A) :
  exists dropped, l = (dropped ++ last_items n l)%list.
Proof.
  exists (firstn (length l - n) l). unfold last_items.
  now rewrite firstn_skipn.
Qed.

(** Cutting twice is cutting once. *)
Lemma last_items_app {A} (n : nat) (l r : list A) :
  last_items n (last_items n l ++ r) = last_items n (l ++ r).
Proof.
  unfold last_items.
  rewrite !length_app, length_skipn, !skipn_app, skipn_skipn, length_skipn.
  f_equal; f_equal; lia.
Qed.

Lemma last_items_past {A} (n : nat) (l r : list A) :
  (n <= length r)%nat -> last_items n (l ++ r) = last_items n r.
Proof.
  intros H. unfold last_items.
  rewrite length_app, skipn_app.
  rewrite (skipn_all2 l) by lia.
  simpl. f_equal. lia.
Qed.

Lemma add_message_messages (cs : ChatSession) (now : datetime) (r : Role)
    (text : string) (path : option string) (used : bool) :
  messages (add_message cs now r text path used)
  = last_items 50
      (messages cs ++ [ {| role := r; content := text;
                           timestamp := readable now; image_path := path;
                           csv_used := used |} ]).
Proof.
  unfold add_message; cbn [messages].
  match goal with |- context [length ?l] => set (appended := l) end.
  destruct (Nat.ltb_spec 50 (length appended)) as [H|H];
    [reflexivity | now rewrite last_items_all].
Qed.

Lemma append_turn_messages (cs : ChatSession) (t : Turn) :
  messages (append_turn cs t) = last_items 50 (messages cs ++ [message_of t]).
Proof. apply add_message_messages. Qed.

Lemma append_turns_messages (ts : list Turn) :
  forall cs, ts <> [] ->
    messages (append_turns cs ts)
    = last_items 50 (messages cs ++ map message_of ts).
Proof.
  induction ts as [|t ts IH]; intros cs Hne; [contradiction|].
  destruct ts as [|t' ts].
  - apply append_turn_messages.
  - change (append_turns cs (t :: t' :: ts))
      with (append_turns (append_turn cs t) (t' :: ts)).
    rewrite IH by discriminate.
    rewrite append_turn_messages, last_items_app, <- app_assoc.
    reflexivity.
Qed.

(** C3. After more than 50 turns were appended to a session, whatever it
    held before, its turn list is the last 50 of the appended turns in
    their order; and each single [add_message] keeps the list within 50
    entries by dropping from the front of the list only. *)
Theorem session_keeps_latest_50 (cs : ChatSession) (ts : list Turn)
    (Hmany : (50 < length ts)%nat) :
  (exists older,
      map message_of ts = (older ++ messages (append_turns cs ts))%list) /\
  length (messages (append_turns cs ts)) = 50%nat /\
  (forall (cs' : ChatSession) now r text path used,
      (length (messages (add_message cs' now r text path used)) <= 50)%nat /\
      exists dropped,
        (messages cs'
         ++ [ {| role := r; content := text; timestamp := readable now;
                 image_path := path; csv_used := used |} ])%list
        = (dropped ++ messages (add_message cs' now r text path used))%list).
Proof.
  assert (Hts : ts <> []) by (intros ->; simpl in Hmany; lia).
  rewrite (append_turns_messages ts cs Hts).
  rewrite last_items_past by (rewrite length_map; lia).
  split; [apply last_items_suffix|].
  split; [rewrite last_items_length, length_map; lia|].
  intros cs' now r text path used.
  rewrite add_message_messages.
  split; [rewrite last_items_length; lia | apply last_items_suffix].
Qed.

Lemma session_keeps_latest_50_witness :
  (50 < length (map sample_turn (seq 0 53)))%nat /\
  length (messages (append_turns sample_session (map sample_turn (seq 0 53))))
  = 50%nat.
Proof.
  split.
  - vm_compute. lia.
  - apply (session_keeps_latest_50 sample_session (map sample_turn (seq 0 53))).
    vm_compute. lia.
Defined.

End SessionFacts.

(** ** The keyword responder: [_generate_text_response] *)

Section ResponderFacts.

Import PyStr.

#[local] Arguments String.append !s1 s2 : simpl nomatch.

Lemma first_response_at (pre post : list (string * string))
    (key reply lower_input : string) :
  contains key lower_input = true ->
  (forall k r, In (k, r) pre -> contains k lower_input = false) ->
  first_response (pre ++ (key, reply) :: post) lower_input = Some reply.
Proof.
  intros Hhit. induction pre as [|[k r] pre IH]; intros Hmiss; simpl.
  - now rewrite Hhit.
  - rewrite (Hmiss k r) by now left.
    apply IH. intros k' r' Hin. apply (Hmiss k' r'). now right.
Qed.

Lemma first_response_none (table : list (string * string))
    (lower_input : string) :
  (forall k r, In (k, r) table -> contains k lower_input = false) ->
  first_response table lower_input = None.
Proof.
  induction table as [|[k r] table IH]; intros Hmiss; simpl; [reflexivity|].
  rewrite (Hmiss k r) by now left.
  apply IH. intros k' r' Hin. apply (Hmiss k' r'). now right.
Qed.

(** C4. The responder answers with the reply of the first trigger, in
    the order hello, hi, help, what can you do, that occurs in the
    lower-cased input; for "hi, help me" this is the reply of "hi" and
    not the one of "help". *)
Theorem responder_first_trigger (text_input key reply : string)
    (pre post : list (string * string))
    (Horder : responses = (pre ++ (key, reply) :: post)%list)
    (Hhit : contains key (lower text_input) = true)
    (Hmiss : forall k r, In (k, r) pre -> contains k (lower text_input) = false) :
  _generate_text_response text_input = reply /\
  map fst responses = ["hello"; "hi"; "help"; "what can you do"] /\
  _generate_text_response "hi, help me"
  = "Hi there! I can help you analyze data, images, and answer questions." /\
  In ("hi", _generate_text_response "hi, help me") responses /\
  ~ In ("help", _generate_text_response "hi, help me") responses.
Proof.
  split.
  - unfold _generate_text_response. rewrite Horder.
    now rewrite (first_response_at pre post key reply _ Hhit Hmiss).
  - split; [reflexivity|]. split; [reflexivity|]. split.
    + right; left; reflexivity.
    + vm_compute. intros H.
      repeat (destruct H as [H|H]; [discriminate H|]). exact H.
Qed.

Lemma responder_first_trigger_witness :
  contains "hi" (lower "hi, help me") = true /\
  _generate_text_response "hi, help me" = hi_reply.
Proof.
  split; [reflexivity|].
  apply (responder_first_trigger "hi, help me" "hi" hi_reply
           [("hello", hello_reply)]
           [("help", help_reply); ("what can you do", what_reply)]).
  - reflexivity.
  - reflexivity.
  - intros k r [H|[]]. inversion H; subst. reflexivity.
Defined.

Lemma contains_self_inside (a s b : string) : contains s (a ++ s ++ b) = true.
Proof. apply contains_spec. now exists a, b. Qed.

(** C8. When no trigger occurs in the lower-cased input the reply is the
    default echo, which carries the input unchanged; in particular the
    reply to "xyzzy" contains "xyzzy". *)
Theorem default_echo_carries_input (text_input : string)
    (Hnone : forall k r, In (k, r) responses ->
                         contains k (lower text_input) = false) :
  _generate_text_response text_input = default_echo text_input /\
  contains text_input (_generate_text_response text_input) = true /\
  contains "xyzzy" (_generate_text_response "xyzzy") = true.
Proof.
  assert (Hecho : _generate_text_response text_input = default_echo text_input).
  { unfold _generate_text_response.
    now rewrite (first_response_none responses _ Hnone). }
  split; [exact Hecho|]. split; [|reflexivity].
  rewrite Hecho. apply contains_self_inside.
Qed.

Lemma default_echo_carries_input_witness :
  contains "xyzzy" (_generate_text_response "xyzzy") = true.
Proof.
  apply (default_echo_carries_input "xyzzy").
  intros k r H. vm_compute in H.
  repeat (destruct H as [H|H]; [inversion H; subst; reflexivity|]).
  destruct H.
Defined.

End ResponderFacts.

(** ** The prompt built from tabular hits *)

Section PromptFacts.

Import PyStr.

#[local] Arguments String.append !s1 s2 : simpl nomatch.

Variable str_of_dict : list (string * value) -> string.

Lemma contains_lower_across (k a b : string) (c : ascii) :
  has_char (lower_char c) k = false ->
  contains k (lower (a ++ String c b))
  = contains k (lower a) || contains k (lower b).
Proof.
  intros H. rewrite lower_append. simpl. now apply contains_across.
Qed.

Lemma contains_lower_nl (k a b : string) :
  has_char "010" k = false ->
  contains k (lower (a ++ nl ++ b))
  = contains k (lower a) || contains k (lower b).
Proof. intros H. now apply (contains_lower_across k a b "010"). Qed.

Lemma contains_lower_nl_head (k b : string) :
  has_char "010" k = false ->
  contains k (lower (nl ++ b)) = contains k EmptyString || contains k (lower b).
Proof. intros H. now apply (contains_lower_across k "" b "010"). Qed.

Lemma contains_lower_space (k a b : string) :
  has_char " " k = false ->
  contains k (lower (a ++ " " ++ b))
  = contains k (lower a) || contains k (lower b).
Proof. intros H. now apply (contains_lower_across k a b " "). Qed.

(** The prompt, written around the characters that separate its fixed and
    its variable parts. *)
Lemma csv_prompt_shape (text_input image_analysis : string)
    (csv_results : list SearchHit) :
  csv_prompt str_of_dict text_input csv_results image_analysis
  = "Based on the following data and context:" ++ nl ++ nl
    ++ "Relevant data found:" ++ nl
    ++ stringified_hits str_of_dict csv_results ++ nl ++ nl
    ++ "Image Analysis:" ++ " " ++ image_analysis ++ nl ++ nl
    ++ "User Question:" ++ " " ++ text_input ++ nl ++ nl
    ++ "Please provide a helpful response using the available data.".
Proof.
  unfold csv_prompt, csv_context, stringified_hits, nl. reflexivity.
Qed.

Ltac split_prompt :=
  rewrite csv_prompt_shape;
  repeat first
    [ rewrite contains_lower_nl by reflexivity
    | rewrite contains_lower_nl_head by reflexivity
    | rewrite contains_lower_space by reflexivity ].

Lemma csv_prompt_misses (k text_input image_analysis : string)
    (csv_results : list SearchHit) :
  In k ["hello"; "hi"] ->
  contains k (lower text_input) = false ->
  contains k (lower image_analysis) = false ->
  contains k (lower (stringified_hits str_of_dict csv_results)) = false ->
  contains k
    (lower (csv_prompt str_of_dict text_input csv_results image_analysis))
  = false.
Proof.
  intros [<-|[<-|[]]] Ht Hi Hd; split_prompt; rewrite Ht, Hi, Hd; reflexivity.
Qed.

Lemma csv_prompt_has_help (text_input image_analysis : string)
    (csv_results : list SearchHit) :
  contains "help"
    (lower (csv_prompt str_of_dict text_input csv_results image_analysis))
  = true.
Proof.
  split_prompt.
  change (contains "help"
            (lower "Please provide a helpful response using the available data."))
    with true.
  now rewrite !orb_true_r.
Qed.

Variable E : RegexEngine.

(** C5. When the search made by [generate_response] yields a hit, and
    neither "hello" nor "hi" occurs, letter case ignored, in the user text,
    in the image description or in the lines that stand for the first three
    hits, the reply is the canned reply of "help": the fixed closing
    sentence of the prompt contains "helpful". *)
Theorem csv_prompt_triggers_help (self : GPTOSSModel) (fs : FileSystem)
    (text_input : string) (path : option string) (use_csv : bool)
    (Hhits : csv_results_of E self text_input use_csv <> [])
    (Htext : forall k, In k ["hello"; "hi"] ->
                       contains k (lower text_input) = false)
    (Himage : forall k, In k ["hello"; "hi"] ->
                        contains k (lower (image_analysis_of fs path)) = false)
    (Hdata : forall k, In k ["hello"; "hi"] ->
               contains k
                 (lower (stringified_hits str_of_dict
                           (csv_results_of E self text_input use_csv)))
               = false) :
  generate_response E str_of_dict self fs text_input path use_csv = help_reply /\
  In ("help", help_reply) responses.
Proof.
  split; [|right; right; left; reflexivity].
  unfold generate_response.
  destruct (csv_results_of E self text_input use_csv) as [|h hits] eqn:Hres;
    [contradiction|].
  unfold _generate_response_with_csv, _generate_text_response, responses.
  cbn [first_response].
  assert (Hhello : In "hello" ["hello"; "hi"]) by now left.
  assert (Hhi : In "hi" ["hello"; "hi"]) by (right; now left).
  rewrite (csv_prompt_misses "hello" _ _ _ Hhello
             (Htext _ Hhello) (Himage _ Hhello) (Hdata _ Hhello)).
  rewrite (csv_prompt_misses "hi" _ _ _ Hhi
             (Htext _ Hhi) (Himage _ Hhi) (Hdata _ Hhi)).
  now rewrite csv_prompt_has_help.
Qed.

End PromptFacts.

Lemma csv_prompt_triggers_help_witness :
  csv_results_of Re.engine sample_model "abc" true <> [] /\
  generate_response Re.engine sample_str_of_dict sample_model no_files
    "abc" None true = help_reply.
Proof.
  split; [vm_compute; discriminate|].
  apply (csv_prompt_triggers_help sample_str_of_dict Re.engine sample_model
           no_files "abc" None true).
  - vm_compute; discriminate.
  - intros k [<-|[<-|[]]]; reflexivity.
  - intros k [<-|[<-|[]]]; reflexivity.
  - intros k [<-|[<-|[]]]; vm_compute; reflexivity.
Defined.

(** ** The media analyzer: [analyze_image] *)

Section AnalyzerFacts.

Import PyStr.

#[local] Arguments String.append !s1 s2 : simpl nomatch.

Lemma drop_append (a b : string) : drop (String.length a) (a ++ b) = b.
Proof. induction a as [|x a IH]; simpl; [now destruct b | exact IH]. Qed.

Lemma drop_zero (s : string) : drop 0 s = s.
Proof. now destruct s. Qed.

Lemma take_drop_last (s : string) : take (String.length s - 1) s = drop_last s.
Proof.
  induction s as [|x s IH]; [reflexivity|].
  destruct s as [|y s]; [reflexivity|].
  replace (String.length (String x (String y s)) - 1)%nat
    with (S (String.length (String y s) - 1))
    by (cbn [String.length]; lia).
  cbn [take]. rewrite IH. reflexivity.
Qed.

Lemma find_from_absent (k s : string) :
  contains k s = false -> find_from k s = None.
Proof.
  induction s as [|x s IH]; simpl; intros H.
  - rewrite orb_false_r in H. now rewrite H.
  - apply orb_false_iff in H as [H1 H2]. now rewrite H1, (IH H2).
Qed.

(** [partition] cuts at the first occurrence. *)
Lemma partition_spec (k s before rest : string) :
  partition k s = Some (before, rest) ->
  s = before ++ k ++ rest /\ find_from k s = Some (String.length before).
Proof.
  revert before; induction s as [|x s IH]; intros before; simpl.
  - destruct (startswith k "") eqn:Hk; [|discriminate].
    intros [= <- <-]. split; [|reflexivity].
    now apply startswith_split in Hk.
  - destruct (startswith k (String x s)) eqn:Hk.
    + intros [= <- <-]. split; [|reflexivity].
      now apply startswith_split in Hk.
    + destruct (partition k s) as [[a b]|]; [|discriminate].
      intros [= <- <-]. destruct (IH a eq_refl) as [-> ->].
      split; reflexivity.
Qed.

Lemma partition_contains (k s before rest : string) :
  partition k s = Some (before, rest) -> contains k s = true.
Proof.
  intros H. apply partition_spec in H as [-> _]. apply contains_self_inside.
Qed.

(** The slice taken by [analyze_image] when no line break follows the
    marker: the text after the marker without its final character. *)
Lemma slice_to_failed_find (marker before rest : string) :
  contains nl rest = false ->
  let content := before ++ marker ++ rest in
  let desc_start := Z.of_nat (String.length before) + len marker in
  find nl content desc_start = -1 /\
  slice content desc_start (-1) = drop_last rest.
Proof.
  intros Hnl content desc_start.
  assert (Hlen : len content = desc_start + len rest).
  { unfold content, desc_start, len. rewrite !length_append. lia. }
  assert (Hdrop : drop (Z.to_nat desc_start) content = rest).
  { unfold desc_start, content, len.
    replace (Z.to_nat (Z.of_nat (String.length before)
                       + Z.of_nat (String.length marker)))
      with (String.length (before ++ marker))
      by (rewrite length_append; lia).
    rewrite <- append_assoc. apply drop_append. }
  assert (Hpos : 0 <= desc_start) by (unfold desc_start, len; lia).
  assert (Hrest : 0 <= len rest) by (unfold len; lia).
  split.
  - unfold find. rewrite Hdrop, (find_from_absent nl rest Hnl).
    now destruct (len content <? desc_start).
  - unfold slice, clamp. rewrite Hlen.
    replace (desc_start <? 0) with false by (symmetry; apply Z.ltb_ge; lia).
    replace (-1 <? 0) with true by reflexivity.
    replace (Z.max 0 (Z.min (desc_start + len rest) desc_start))
      with desc_start by lia.
    rewrite Hdrop.
    replace (Z.to_nat (Z.max 0 (Z.min (desc_start + len rest)
                                   (-1 + (desc_start + len rest)))
                       - desc_start))
      with (String.length rest - 1)%nat by (unfold len; lia).
    apply take_drop_last.
Qed.

(** C10, as amended. For a [.txt] path whose content has the marker and no
    line break after it, the description returned is the text after the
    marker without its final character, stripped of the white space
    around it. *)
Theorem description_without_line_break (fs : FileSystem)
    (path content before rest : string)
    (Htxt : endswith ".txt" path = true)
    (Hread : read_text fs path = Ok content)
    (Hmark : partition "Description:" content = Some (before, rest))
    (Hnl : contains nl rest = false) :
  analyze_image fs path = strip (drop_last rest).
Proof.
  unfold analyze_image. rewrite Htxt, Hread.
  rewrite (partition_contains _ _ _ _ Hmark).
  destruct (partition_spec _ _ _ _ Hmark) as [Hcontent Hfind].
  assert (Hstart : find "Description:" content 0
                   = Z.of_nat (String.length before)).
  { unfold find. rewrite drop_zero, Hfind.
    replace (len content <? 0) with false
      by (symmetry; apply Z.ltb_ge; unfold len; lia).
    lia. }
  rewrite Hstart, Hcontent.
  destruct (slice_to_failed_find "Description:" before rest Hnl) as [-> ->].
  reflexivity.
Qed.

Lemma description_without_line_break_witness :
  partition "Description:" "Description: a cat" = Some ("", " a cat") /\
  analyze_image placeholder_files "static/uploads/shot.txt" = "a ca".
Proof.
  split; [reflexivity|].
  apply (description_without_line_break placeholder_files
           "static/uploads/shot.txt" "Description: a cat" "" " a cat");
    reflexivity.
Defined.

(** C10, as stated, fails: on the content "Description: a cat" the text
    after the marker without its final character is " a ca", with its
    leading blank, and the description returned is "a ca". *)
Lemma description_is_stripped :
  endswith ".txt" "static/uploads/shot.txt" = true /\
  read_text placeholder_files "static/uploads/shot.txt"
  = Ok "Description: a cat" /\
  partition "Description:" "Description: a cat" = Some ("", " a cat") /\
  contains nl " a cat" = false /\
  analyze_image placeholder_files "static/uploads/shot.txt"
  <> drop_last " a cat".
Proof. repeat split; try reflexivity. vm_compute. discriminate. Qed.

End AnalyzerFacts.

(** ** The request handler: [chat] *)

Section ChatFacts.

Import PyStr.

Variable generate :
  FileSystem -> string -> option string -> bool -> result string.

Variable save_upload : FileSystem -> string -> string -> FileSystem * result unit.

Lemma ensure_session_present (w : World) (now : datetime) (sid : string)
    (cs : ChatSession) :
  chat_sessions w !! sid = Some cs -> ensure_session w now sid = w.
Proof. intros H. unfold ensure_session. now rewrite H. Qed.

Lemma ensure_session_lookup (w : World) (now : datetime) (sid : string) :
  exists cs, chat_sessions (ensure_session w now sid) !! sid = Some cs.
Proof.
  unfold ensure_session.
  destruct (chat_sessions w !! sid) as [cs|] eqn:H.
  - now exists cs.
  - exists (new_session sid now). cbn. apply lookup_insert_eq.
Qed.


(** C6. A call of [chat] by a caller with a session, whose message is
    blank and whose image is missing or unnamed, answers 400 with an
    [error] field.  When the session is in the registry the whole state is
    left as it was; in any case no turn is added to any session: a session
    of the registry afterwards was there before, unchanged, or is the
    caller's, newly registered and without turns. *)
Theorem chat_without_input_is_rejected (w : World) (clock : Clock)
    (req : ChatRequest) (sid : string)
    (Hcookie : cookie_session_id req = Some sid)
    (Hblank : request_message req = "")
    (Hnofile : file_truthy (files_image req) = false) :
  snd (chat generate save_upload w clock req)
  = Ok {| body := ErrorReply "No message or image provided"; status := 400 |}
  /\
  (forall cs, chat_sessions w !! sid = Some cs ->
              fst (chat generate save_upload w clock req) = w) /\
  (forall sid' cs',
      chat_sessions (fst (chat generate save_upload w clock req)) !! sid'
      = Some cs' ->
      chat_sessions w !! sid' = Some cs' \/
      (sid' = sid /\ chat_sessions w !! sid = None /\ messages cs' = [])).
Proof.
  assert (Hchat : chat generate save_upload w clock req
                  = (ensure_session w (at_session clock) sid,
                     Ok {| body := ErrorReply "No message or image provided";
                           status := 400 |})).
  { unfold chat. now rewrite Hcookie, Hblank, Hnofile. }
  rewrite Hchat. cbn [fst snd].
  split; [reflexivity|]. split.
  - intros cs Hknown. now apply ensure_session_present with cs.
  - intros sid' cs'. unfold ensure_session.
    destruct (chat_sessions w !! sid) as [cs|] eqn:Hsid; [now left|].
    cbn. destruct (decide (sid = sid')) as [<-|Hne].
    + rewrite lookup_insert_eq. intros [= <-]. right. now repeat split.
    + rewrite lookup_insert_ne by exact Hne. now left.
Qed.

Lemma ensure_session_files (w : World) (now : datetime) (sid : string) :
  files (ensure_session w now sid) = files w.
Proof. unfold ensure_session. now destruct (chat_sessions w !! sid). Qed.



(** C9. When [chat] answers with its success reply, the [message_count]
    of the reply is the number of turns that the caller's session holds
    once the call is over. *)
Theorem chat_reports_turn_count (w : World) (clock : Clock)
    (req : ChatRequest) (ok : bool) (reply sid : string) (n : nat)
    (used : bool)
    (Hok : snd (chat generate save_upload w clock req)
           = Ok {| body := ChatReply ok reply sid n used; status := 200 |}) :
  cookie_session_id req = Some sid /\
  exists cs,
    chat_sessions (fst (chat generate save_upload w clock req)) !! sid
    = Some cs /\
    n = length (messages cs).
Proof.
  revert Hok. unfold chat.
  destruct (cookie_session_id req) as [sid0|]; [|discriminate].
  destruct (negb (truthy (request_message req))
            && negb (file_truthy (files_image req))); [discriminate|].
  unfold chat_turn.
  destruct (upload _ _ _ _ _) as [fs [path|e]]; [|discriminate].
  destruct (generate _ _ _ _) as [text|e]; [|discriminate].
  cbn [fst snd]. intros [= _ _ <- <- _].
  split; [reflexivity|].
  eexists. split; [cbn; apply lookup_insert_eq | reflexivity].
Qed.

End ChatFacts.

Lemma chat_without_input_is_rejected_witness :
  request_message blank_request = "" /\
  snd (chat failing_generator sample_disk sample_world sample_clock
         blank_request)
  = Ok {| body := ErrorReply "No message or image provided"; status := 400 |}
  /\
  fst (chat failing_generator sample_disk sample_world sample_clock
         blank_request)
  = sample_world.
Proof.
  split; [reflexivity|].
  destruct (chat_without_input_is_rejected failing_generator sample_disk
              sample_world sample_clock blank_request "s1"
              eq_refl eq_refl eq_refl)
    as (Hreply & Hsame & _).
  split; [exact Hreply | now apply (Hsame sample_session)].
Defined.


Lemma chat_reports_turn_count_witness :
  exists cs,
    chat_sessions
      (fst (chat (model_generate_response Re.engine sample_str_of_dict
                    sample_model)
              sample_disk sample_world sample_clock sample_request))
      !! "s1" = Some cs /\
    2%nat = length (messages cs).
Proof.
  apply (chat_reports_turn_count
           (model_generate_response Re.engine sample_str_of_dict sample_model)
           sample_disk sample_world sample_clock sample_request true
           help_reply "s1" 2 true).
  vm_compute. reflexivity.
Defined.

(** ** The tabular store: [search_csv_data] *)

Section ReferenceEngine.

Import PyStr.

Lemma parse_plain (q : string) :
  plain q = true -> Re.parse q = Ok (literal_atoms q).
Proof.
  induction q as [|c q IH]; simpl; [reflexivity|].
  intros H. apply andb_true_iff in H as [Hc Hq].
  rewrite (IH Hq). apply negb_true_iff in Hc.
  destruct (Ascii.eqb_spec c ".") as [->|_]; [discriminate Hc|].
  now rewrite Hc.
Qed.

Lemma match_here_literal (q s : string) :
  Re.match_here true (literal_atoms q) s = startswith (lower q) (lower s).
Proof.
  revert s; induction q as [|c q IH]; intros s; [now destruct s|].
  destruct s as [|d s]; simpl; [reflexivity | now rewrite IH].
Qed.

Lemma search_atoms_literal (q s : string) :
  Re.search_atoms true (literal_atoms q) s = ci_contains q s.
Proof.
  unfold ci_contains.
  induction s as [|d s IH]; simpl; rewrite match_here_literal;
    [reflexivity | now rewrite IH].
Qed.

(** The reference engine treats plain queries as the search relies on. *)
Lemma reference_engine_sound : literal_sound Re.engine.
Proof.
  intros q Hq. exists (true, literal_atoms q). split.
  - cbn. unfold Re.compile. now rewrite (parse_plain q Hq).
  - intros s. apply search_atoms_literal.
Qed.

End ReferenceEngine.

Section SearchFacts.

Import PyStr.

Variable E : RegexEngine.

Lemma selected_spec (mask : list bool) :
  forall k i,
    In i (selected mask k)
    <-> (k <= i)%nat /\ nth_error mask (i - k) = Some true.
Proof.
  induction mask as [|b mask IH]; intros k i; simpl.
  - split; [contradiction|]. intros [_ H]. now destruct (i - k)%nat.
  - assert (Hstep : In i (selected mask (S k))
                    <-> (k < i)%nat /\ nth_error mask (i - S k) = Some true)
      by (rewrite IH; reflexivity).
    destruct (Nat.eq_dec i k) as [->|Hne].
    + rewrite Nat.sub_diag. simpl.
      destruct b; simpl; rewrite ?Hstep; split; intros H.
      * split; [lia | reflexivity].
      * now left.
      * destruct H; lia.
      * destruct H as [_ H]. discriminate.
    + assert (Hcase : (i < k)%nat \/ (k < i)%nat) by lia.
      destruct Hcase as [Hlt|Hgt].
      * split.
        -- intros H. assert (Hin : In i (selected mask (S k)))
             by (destruct b; [destruct H as [H|H]; [lia | exact H] | exact H]).
           apply Hstep in Hin. lia.
        -- intros [H _]. lia.
      * replace (i - k)%nat with (S (i - S k)) by lia. simpl.
        split.
        -- intros H. assert (Hin : In i (selected mask (S k)))
             by (destruct b; [destruct H as [H|H]; [lia | exact H] | exact H]).
           apply Hstep in Hin. split; [lia | tauto].
        -- intros [_ H].
           assert (Hin : In i (selected mask (S k))) by (apply Hstep; tauto).
           destruct b; [now right | exact Hin].
Qed.

(** With a pattern that compiles, the loop over the columns of one table
    adds the hits of each [object] column it reaches, in turn. *)
Lemma search_columns_compiled (query : string) (r : pattern E)
    (fname : string) (df : DataFrame) (cols : list (string * Series)) :
  re_compile E query true = Ok r ->
  forall results,
    search_columns E fname df cols query results
    = (results
       ++ flat_map (column_hits (re_search E r) fname df) (reached cols))%list.
Proof.
  intros Hc. induction cols as [|[col ser] cols IH]; intros results; simpl.
  - now rewrite app_nil_r.
  - destruct ser as [values|values].
    + unfold str_contains. cbn [negb].
      destruct (str_accessor_ok values).
      * rewrite Hc, IH, <- app_assoc. reflexivity.
      * now rewrite app_nil_r.
    + now rewrite IH.
Qed.

Lemma search_csv_data_compiled (self : GPTOSSModel) (query : string)
    (r : pattern E) :
  re_compile E query true = Ok r ->
  search_csv_data E self query = hits_where (re_search E r) self.
Proof.
  intros Hc. unfold search_csv_data, hits_where.
  assert (Hfold : forall tables results,
    fold_left
      (fun acc t =>
         search_columns E (fst t) (snd t) (columns (snd t)) query acc)
      tables results
    = (results
       ++ flat_map (fun t => flat_map
                               (column_hits (re_search E r) (fst t) (snd t))
                               (reached (columns (snd t)))) tables)%list).
  { induction tables as [|t tables IH]; intros results; simpl.
    - now rewrite app_nil_r.
    - now rewrite IH, (search_columns_compiled query r _ _ _ Hc), <- app_assoc. }
  apply (Hfold (csv_data self) []).
Qed.

Lemma column_hits_ext (f g : string -> bool) (fname : string)
    (df : DataFrame) (c : string * Series) :
  (forall s, f s = g s) -> column_hits f fname df c = column_hits g fname df c.
Proof.
  intros H. unfold column_hits. destruct (snd c) as [values|]; [|reflexivity].
  do 2 f_equal. apply map_ext. intros [s|z|b|]; [apply H | reflexivity ..].
Qed.

Lemma hits_where_ext (f g : string -> bool) (self : GPTOSSModel) :
  (forall s, f s = g s) -> hits_where f self = hits_where g self.
Proof.
  intros H. unfold hits_where.
  apply flat_map_ext. intros t. apply flat_map_ext. intros c.
  now apply column_hits_ext.
Qed.

Lemma reached_subset (cols : list (string * Series)) (c : string * Series) :
  In c (reached cols) -> In c cols.
Proof.
  induction cols as [|[col [values|values]] cols IH]; simpl.
  - tauto.
  - destruct (str_accessor_ok values); simpl; tauto.
  - tauto.
Qed.

Lemma text_value_of_reached (self : GPTOSSModel) (fname : string)
    (df : DataFrame) (col : string) (i : nat) (s : string) :
  text_value_reached self fname df col i s -> text_value self fname df col i s.
Proof.
  intros [Ht (values & Hc & Hv)]. split; [exact Ht|].
  exists values. split; [now apply reached_subset | exact Hv].
Qed.

(** The hits of [hits_where] are the strings of the text columns reached
    that pass the test, each reported with its table, column and row. *)
Lemma hits_where_spec (test : string -> bool) (self : GPTOSSModel)
    (h : SearchHit) :
  In h (hits_where test self)
  <-> exists fname df col i s,
        text_value_reached self fname df col i s /\ test s = true /\
        h = hit_at fname df col i.
Proof.
  unfold hits_where, text_value_reached. rewrite in_flat_map. split.
  - intros ([fname df] & Ht & Hin). apply in_flat_map in Hin.
    destruct Hin as ([col ser] & Hc & Hin). unfold column_hits in Hin.
    cbn [fst snd] in *. destruct ser as [values|values]; [|contradiction].
    apply in_map_iff in Hin as (i & <- & Hi).
    apply selected_spec in Hi as [_ Hi]. rewrite Nat.sub_0_r in Hi.
    rewrite nth_error_map in Hi.
    destruct (nth_error values i) as [[s|z|b|]|] eqn:Hv; try discriminate.
    exists fname, df, col, i, s. repeat split; eauto. now injection Hi.
  - intros (fname & df & col & i & s & [Ht (values & Hc & Hv)] & Hs & ->).
    exists (fname, df). split; [exact Ht|].
    apply in_flat_map. exists (col, ObjectSeries values).
    split; [exact Hc|]. unfold column_hits. cbn [fst snd].
    apply in_map, selected_spec. split; [lia|].
    rewrite Nat.sub_0_r, nth_error_map, Hv. cbn. now rewrite Hs.
Qed.

End SearchFacts.

Lemma ci_contains_empty (s : string) : ci_contains "" s = true.
Proof.
  unfold ci_contains. apply contains_startswith, startswith_empty.
Qed.

(** C1, as stated, fails: on a table with two strings in its text column
    the store's search answers the empty query with two hits. *)
Lemma empty_query_matches_every_string :
  search_csv_data Re.engine sample_model ""
  = [ hit_at "items.csv" sample_frame "name" 0;
      hit_at "items.csv" sample_frame "name" 2 ] /\
  search_csv_data Re.engine sample_model "" <> [].
Proof. split; [reflexivity | discriminate]. Qed.

(** C1, as amended. The handler of [/search_csv] answers an empty or a
    missing query with an empty sequence of hits, whatever the tables of
    the model are: it returns before the store's search is called. *)
Theorem empty_query_is_stopped_by_the_handler
    (search : string -> result (list SearchHit)) (E : RegexEngine)
    (self : GPTOSSModel) :
  search_csv search (Some "") = Ok {| body := ResultsReply []; status := 200 |}
  /\ search_csv search None = Ok {| body := ResultsReply []; status := 200 |}
  /\ search_csv (model_search_csv_data E self) (Some "")
     = Ok {| body := ResultsReply []; status := 200 |}
  /\ search_csv (model_search_csv_data E self) None
     = Ok {| body := ResultsReply []; status := 200 |}.
Proof. repeat split. Qed.

(** C2, as stated, fails: the query "a.c" is not a substring, in any
    letter case, of any string of the sample table, and yet the row that
    holds "abc" is returned, the dot standing for any character. *)
Lemma dot_query_is_a_wildcard :
  In (hit_at "items.csv" sample_frame "name" 0)
     (search_csv_data Re.engine sample_model "a.c") /\
  "a.c" <> "" /\
  forall fname df col i s,
    text_value sample_model fname df col i s -> ci_contains "a.c" s = false.
Proof.
  split; [now left|]. split; [discriminate|].
  intros fname df col i s [Ht (values & Hc & Hv)].
  destruct Ht as [[= <- <-]|[]].
  destruct Hc as [[= <- <-]|[[=]|[]]].
  destruct i as [|[|[|i]]]; simpl in Hv; try discriminate;
    try (injection Hv as <-; reflexivity).
  now destruct i.
Qed.

Lemma selected_length (mask : list bool) :
  forall k, length (selected mask k) = length (List.filter (fun b => b) mask).
Proof.
  induction mask as [|b mask IH]; intros k; simpl; [reflexivity|].
  destruct b; simpl; now rewrite IH.
Qed.

Lemma filter_map_length {A B} (f : A -> B) (p : B -> bool) (l : list A) :
  length (List.filter p (map f l))
  = length (List.filter (fun x => p (f x)) l).
Proof.
  induction l as [|x l IH]; simpl; [reflexivity|].
  destruct (p (f x)); simpl; now rewrite IH.
Qed.

Lemma column_hits_length (test : string -> bool) (fname : string)
    (df : DataFrame) (c : string * Series) :
  length (column_hits test fname df c)
  = match snd c with
    | ObjectSeries values => count_matching test values
    | NumericSeries _ => 0%nat
    end.
Proof.
  unfold column_hits, count_matching. destruct (snd c) as [values|values];
    [|reflexivity].
  now rewrite length_map, selected_length, filter_map_length.
Qed.

Lemma flat_map_length_sum {A B} (f : A -> list B) (l : list A) :
  length (flat_map f l) = list_sum (map (fun x => length (f x)) l).
Proof.
  induction l as [|x l IH]; simpl; [reflexivity|].
  now rewrite length_app, IH.
Qed.

(** The hits of [hits_where] are as many as the strings that pass the
    test. *)
Lemma hits_where_length (test : string -> bool) (self : GPTOSSModel) :
  length (hits_where test self) = matches_where test self.
Proof.
  unfold hits_where, matches_where. rewrite flat_map_length_sum.
  f_equal. apply map_ext. intros t. rewrite flat_map_length_sum.
  f_equal. apply map_ext. intros c. apply column_hits_length.
Qed.

(** The column refused the accessor ends the search of its table: the
    city column of the sample is never searched. *)
Lemma unreadable_column_ends_the_table :
  search_csv_data Re.engine mixed_model "paris" = [] /\
  text_value mixed_model "mixed.csv" mixed_frame "city" 0 "Paris" /\
  search_csv_data Re.engine mixed_model "abc"
  = [hit_at "items.csv" sample_frame "name" 0].
Proof.
  split; [reflexivity|]. split; [|reflexivity].
  split; [now left|].
  exists [VStr "Paris"; VStr "Rome"]. split; [right; now left | reflexivity].
Qed.

(** C2, as amended. For a non-empty query without any of the characters
    [. ^ $ * + ? { } [ ] \ | ( )], the hits are, in table, column and row
    order, one for each string that contains the query when letter case is
    ignored, over the text columns that the search reaches: the columns of
    a table before its first [object] column that is refused the accessor
    [.str].  So a hit is returned exactly for such a string, and the hits
    are as many as these strings. *)
Theorem plain_query_is_substring_search (E : RegexEngine)
    (self : GPTOSSModel) (q : string)
    (Hsound : literal_sound E)
    (Hq : q <> "")
    (Hplain : plain q = true) :
  search_csv_data E self q = hits_where (ci_contains q) self /\
  length (search_csv_data E self q) = matches_where (ci_contains q) self /\
  forall h,
    In h (search_csv_data E self q)
    <-> exists fname df col i s,
          text_value_reached self fname df col i s /\
          ci_contains q s = true /\
          h = hit_at fname df col i.
Proof.
  destruct (Hsound q Hplain) as (r & Hc & Hr).
  assert (Heq : search_csv_data E self q = hits_where (ci_contains q) self).
  { rewrite (search_csv_data_compiled E self q r Hc).
    now apply hits_where_ext. }
  rewrite Heq. split; [reflexivity|].
  split; [apply hits_where_length|].
  intros h. apply hits_where_spec.
Qed.

Lemma plain_query_is_substring_search_witness :
  plain "DELTA" = true /\
  search_csv_data Re.engine sample_model "DELTA"
  = [hit_at "items.csv" sample_frame "name" 2].
Proof.
  split; [reflexivity|].
  destruct (plain_query_is_substring_search Re.engine sample_model "DELTA"
              reference_engine_sound) as [Heq _].
  - discriminate.
  - reflexivity.
  - rewrite Heq. reflexivity.
Defined.

(** * Further properties of the code *)

(** ** [search_csv_data] and [search_csv] *)

Section MoreSearchFacts.

Variable E : RegexEngine.

Lemma search_columns_rejected (query e : string) (fname : string)
    (df : DataFrame) (cols : list (string * Series))
    (results : list SearchHit) :
  re_compile E query true = Raise e ->
  search_columns E fname df cols query results = results.
Proof.
  intros Hc. induction cols as [|[col [values|values]] cols IH]; simpl.
  - reflexivity.
  - unfold str_contains. cbn [negb]. rewrite Hc.
    now destruct (str_accessor_ok values).
  - exact IH.
Qed.

Lemma search_csv_data_rejected (self : GPTOSSModel) (query e : string) :
  re_compile E query true = Raise e -> search_csv_data E self query = [].
Proof.
  intros Hc. unfold search_csv_data.
  induction (csv_data self) as [|t tables IH]; simpl; [reflexivity|].
  now rewrite (search_columns_rejected query e _ _ _ _ Hc).
Qed.

Lemma search_columns_from (query fname : string) (df : DataFrame)
    (cols : list (string * Series)) :
  forall results,
    search_columns E fname df cols query results
    = (results ++ search_columns E fname df cols query [])%list.
Proof.
  induction cols as [|[col [values|values]] cols IH]; intros results; simpl.
  - now rewrite app_nil_r.
  - destruct (str_contains E query false false values) as [mask|e].
    + rewrite IH, (IH (map _ _)), app_assoc. reflexivity.
    + now rewrite app_nil_r.
  - apply IH.
Qed.

Lemma search_tables_from (query : string) (tables : list (string * DataFrame)) :
  forall results,
    fold_left
      (fun acc t => search_columns E (fst t) (snd t) (columns (snd t)) query acc)
      tables results
    = (results
       ++ fold_left
            (fun acc t =>
               search_columns E (fst t) (snd t) (columns (snd t)) query acc)
            tables [])%list.
Proof.
  induction tables as [|t tables IH]; intros results; simpl.
  - now rewrite app_nil_r.
  - rewrite IH, (IH (search_columns _ _ _ _ _ [])).
    rewrite (search_columns_from query (fst t) (snd t) _ results).
    now rewrite app_assoc.
Qed.

(** X1. A query that the regular-expression compiler rejects makes the
    search return no hit and raise nothing, whatever the tables hold; a
    call of [generate_response] with such a text then answers as it does
    without the tabular search. *)
Theorem rejected_query_finds_nothing
    (str_of_dict : list (string * value) -> string) (self : GPTOSSModel)
    (fs : FileSystem) (query e : string) (path : option string)
    (use_csv : bool)
    (Hreject : re_compile E query true = Raise e) :
  search_csv_data E self query = [] /\
  generate_response E str_of_dict self fs query path use_csv
  = generate_response E str_of_dict self fs query path false.
Proof.
  pose proof (search_csv_data_rejected self query e Hreject) as Hnone.
  split; [exact Hnone|].
  unfold generate_response, csv_results_of. rewrite Hnone.
  now destruct use_csv, (csv_data self).
Qed.

Lemma search_hit_origin (self : GPTOSSModel) (query : string) (h : SearchHit) :
  In h (search_csv_data E self query) ->
  exists fname df col i s,
    text_value self fname df col i s /\ h = hit_at fname df col i.
Proof.
  intros Hin. destruct (re_compile E query true) as [r|e] eqn:Hc.
  - rewrite (search_csv_data_compiled E self query r Hc) in Hin.
    apply hits_where_spec in Hin
      as (fname & df & col & i & s & Ht & _ & Hh).
    exists fname, df, col, i, s.
    split; [now apply text_value_of_reached | exact Hh].
  - rewrite (search_csv_data_rejected self query e Hc) in Hin.
    destruct Hin.
Qed.

(** X2. Whatever the query and the engine, every hit stands for a string
    that is present in a text column of a loaded table: the hit names the
    table and the column and carries the whole row.  Missing values and
    the values of numeric columns are never matched. *)
Theorem hits_are_text_cells (self : GPTOSSModel) (query : string)
    (h : SearchHit)
    (Hin : In h (search_csv_data E self query)) :
  exists fname df col i s,
    text_value self fname df col i s /\ h = hit_at fname df col i /\
    file h = fname /\ column h = col /\ data h = row_to_dict df i.
Proof.
  destruct (search_hit_origin self query h Hin)
    as (fname & df & col & i & s & Ht & ->).
  exists fname, df, col, i, s. split; [exact Ht | repeat split].
Qed.

(** X3. The hits are reported table by table, in the order of the
    mapping: the search of a mapping is the search of its first tables
    followed by the search of the tables after them. *)
Theorem search_goes_table_by_table (first rest : list (string * DataFrame))
    (query : string) :
  search_csv_data E {| csv_data := (first ++ rest)%list |} query
  = (search_csv_data E {| csv_data := first |} query
     ++ search_csv_data E {| csv_data := rest |} query)%list.
Proof.
  unfold search_csv_data. cbn [csv_data].
  rewrite fold_left_app. apply search_tables_from.
Qed.

(** X4. With the model object behind it, the handler of [/search_csv]
    always answers 200 and never raises; for a non-empty query its
    results are the first hits of the store's search, at most ten. *)
Theorem search_csv_returns_first_ten (self : GPTOSSModel) (q : string)
    (Hq : q <> "") :
  exists hits,
    search_csv (model_search_csv_data E self) (Some q)
    = Ok {| body := ResultsReply hits; status := 200 |} /\
    hits = firstn 10 (search_csv_data E self q) /\
    (length hits <= 10)%nat /\
    exists later, search_csv_data E self q = (hits ++ later)%list.
Proof.
  exists (firstn 10 (search_csv_data E self q)).
  split.
  - unfold search_csv, model_search_csv_data.
    destruct q; [contradiction | reflexivity].
  - split; [reflexivity|]. split; [apply firstn_le_length|].
    exists (skipn 10 (search_csv_data E self q)).
    now rewrite firstn_skipn.
Qed.

End MoreSearchFacts.

Lemma rejected_query_finds_nothing_witness :
  re_compile Re.engine "what (now" true = Raise "unsupported pattern" /\
  search_csv_data Re.engine sample_model "what (now" = [].
Proof.
  split; [reflexivity|].
  apply (rejected_query_finds_nothing Re.engine sample_str_of_dict
           sample_model no_files "what (now" "unsupported pattern" None true).
  reflexivity.
Defined.

Lemma hits_are_text_cells_witness :
  exists fname df col i s,
    text_value sample_model fname df col i s /\
    hit_at "items.csv" sample_frame "name" 0 = hit_at fname df col i.
Proof.
  destruct (hits_are_text_cells Re.engine sample_model "a.c"
              (hit_at "items.csv" sample_frame "name" 0))
    as (fname & df & col & i & s & Ht & Hh & _).
  - now left.
  - now exists fname, df, col, i, s.
Defined.

Lemma search_csv_returns_first_ten_witness :
  exists hits,
    search_csv (model_search_csv_data Re.engine sample_model) (Some "abc")
    = Ok {| body := ResultsReply hits; status := 200 |} /\
    hits = firstn 10 (search_csv_data Re.engine sample_model "abc") /\
    (length hits <= 10)%nat /\
    exists later,
      search_csv_data Re.engine sample_model "abc" = (hits ++ later)%list.
Proof.
  apply (search_csv_returns_first_ten Re.engine sample_model "abc").
  discriminate.
Defined.

(** ** The prompts and the keyword responder *)

Section MorePromptFacts.

Import PyStr.

#[local] Arguments String.append !s1 s2 : simpl nomatch.

Variable str_of_dict : list (string * value) -> string.

Ltac split_csv_prompt :=
  rewrite csv_prompt_shape;
  repeat first
    [ rewrite contains_lower_nl by reflexivity
    | rewrite contains_lower_nl_head by reflexivity
    | rewrite contains_lower_space by reflexivity ].

(** Where "hello" and "hi" can occur in the prompt built from hits. *)
Lemma csv_prompt_occurrences (k text_input image_analysis : string)
    (csv_results : list SearchHit) :
  In k ["hello"; "hi"] ->
  contains k
    (lower (csv_prompt str_of_dict text_input csv_results image_analysis))
  = contains k (lower (stringified_hits str_of_dict csv_results))
    || (contains k (lower image_analysis) || contains k (lower text_input)).
Proof.
  intros [<-|[<-|[]]]; split_csv_prompt; simpl; now rewrite orb_false_r.
Qed.

Lemma default_echo_is_not_canned (t : string) :
  ~ In (default_echo t) [hello_reply; hi_reply; help_reply; what_reply].
Proof.
  intros H. repeat (destruct H as [H|H]; [vm_compute in H; discriminate H|]).
  exact H.
Qed.

Variable E : RegexEngine.

Lemma csv_path_reply_cases (self : GPTOSSModel) (fs : FileSystem)
    (text_input : string) (path : option string) (use_csv : bool) :
  csv_results_of E self text_input use_csv <> [] ->
  generate_response E str_of_dict self fs text_input path use_csv
  = (if occurs_in_parts "hello"
          (stringified_hits str_of_dict
             (csv_results_of E self text_input use_csv))
          (image_analysis_of fs path) text_input
     then hello_reply
     else if occurs_in_parts "hi"
               (stringified_hits str_of_dict
                  (csv_results_of E self text_input use_csv))
               (image_analysis_of fs path) text_input
          then hi_reply else help_reply).
Proof.
  intros Hhits. unfold generate_response, occurs_in_parts.
  destruct (csv_results_of E self text_input use_csv) as [|h hits];
    [contradiction|].
  unfold _generate_response_with_csv, _generate_text_response, responses.
  cbn [first_response].
  rewrite (csv_prompt_occurrences "hello") by now left.
  rewrite (csv_prompt_occurrences "hi") by (right; now left).
  rewrite csv_prompt_has_help.
  repeat match goal with
         | |- context [if ?b then Some _ else _] => destruct b
         end; reflexivity.
Qed.

Lemma canned_choice_is_not_echo (a b : bool) :
  (if a then hello_reply else if b then hi_reply else help_reply) <> what_reply
  /\ forall t,
       (if a then hello_reply else if b then hi_reply else help_reply)
       <> default_echo t.
Proof.
  split.
  - destruct a, b; vm_compute; discriminate.
  - intros t Heq. apply (default_echo_is_not_canned t). rewrite <- Heq.
    destruct a, b; simpl; tauto.
Qed.

(** X5. When the search made by [generate_response] yields a hit, the
    reply is the reply of "hello" if that word occurs, letter case
    ignored, in the lines of the first three hits, in the image description
    or in the user text; else the reply of "hi" on the same condition;
    else the reply of "help".  The reply of "what can you do" and the
    default echo are never given on this path. *)
Theorem csv_path_reply (self : GPTOSSModel) (fs : FileSystem)
    (text_input : string) (path : option string) (use_csv : bool)
    (Hhits : csv_results_of E self text_input use_csv <> []) :
  let occurs k :=
    occurs_in_parts k
      (stringified_hits str_of_dict
         (csv_results_of E self text_input use_csv))
      (image_analysis_of fs path) text_input in
  generate_response E str_of_dict self fs text_input path use_csv
  = (if occurs "hello" then hello_reply
     else if occurs "hi" then hi_reply else help_reply) /\
  generate_response E str_of_dict self fs text_input path use_csv
  <> what_reply /\
  forall t,
    generate_response E str_of_dict self fs text_input path use_csv
    <> default_echo t.
Proof.
  intros occurs. subst occurs. cbv beta.
  rewrite (csv_path_reply_cases self fs text_input path use_csv Hhits).
  split; [reflexivity|]. apply canned_choice_is_not_echo.
Qed.

(** X17. A message that is an image alone, sent with the tabular search
    switched on, is searched for as the empty query: as soon as a loaded
    table holds a string in a text column that the search reaches, the
    reply is one of the canned replies of "hello", "hi" and "help", and
    the prompt of the image path is not used. *)
Theorem image_alone_with_tables_is_canned (self : GPTOSSModel)
    (fs : FileSystem) (path : option string)
    (fname col s : string) (df : DataFrame) (i : nat)
    (Hsound : literal_sound E)
    (Hcell : text_value_reached self fname df col i s) :
  search_csv_data E self "" <> [] /\
  In (generate_response E str_of_dict self fs "" path true)
     [hello_reply; hi_reply; help_reply] /\
  forall t,
    generate_response E str_of_dict self fs "" path true <> default_echo t.
Proof.
  assert (Hsearch : search_csv_data E self "" <> []).
  { destruct (Hsound "" eq_refl) as (r & Hc & Hr).
    rewrite (search_csv_data_compiled E self "" r Hc).
    intros Hnil.
    assert (Hin : In (hit_at fname df col i) (hits_where (re_search E r) self)).
    { apply hits_where_spec. exists fname, df, col, i, s.
      split; [exact Hcell|]. split; [|reflexivity].
      rewrite Hr. apply ci_contains_empty. }
    rewrite Hnil in Hin. destruct Hin. }
  assert (Hhits : csv_results_of E self "" true <> []).
  { unfold csv_results_of. destruct Hcell as [Htable _].
    destruct (csv_data self); [destruct Htable | exact Hsearch]. }
  split; [exact Hsearch|].
  rewrite (csv_path_reply_cases self fs "" path true Hhits).
  split.
  - repeat match goal with
           | |- context [if ?b then _ else _] => destruct b
           end; simpl; tauto.
  - apply canned_choice_is_not_echo.
Qed.

Lemma image_prompt_shape (text_input image_analysis : string) :
  image_prompt text_input image_analysis
  = "Image Analysis" ++ ":" ++ " " ++ image_analysis ++ nl ++ nl
    ++ "User Question" ++ ":" ++ " " ++ text_input ++ nl ++ nl
    ++ "Please provide a response based on the image analysis.".
Proof. reflexivity. Qed.

Lemma contains_lower_colon (k a b : string) :
  has_char ":" k = false ->
  contains k (lower (a ++ ":" ++ b))
  = contains k (lower a) || contains k (lower b).
Proof. intros H. now apply (contains_lower_across k a b ":"). Qed.

(** A blank before [b] does not help a word that begins with a letter. *)
Lemma contains_lower_blank_head (c : ascii) (k b : string) :
  Ascii.eqb c " " = false ->
  contains (String c k) (lower (" " ++ b)) = contains (String c k) (lower b).
Proof.
  intros H. change (lower (" " ++ b)) with (String " " (lower b)).
  cbn [contains startswith]. now rewrite H.
Qed.

(** Where a trigger can occur in the prompt built from an image
    description. *)
Lemma image_prompt_occurrences (k text_input image_analysis : string) :
  In k (map fst responses) ->
  contains k (lower (image_prompt text_input image_analysis))
  = contains k (lower image_analysis) || contains k (lower text_input).
Proof.
  intros Hk. cbn in Hk.
  destruct Hk as [<-|[<-|[<-|[<-|[]]]]]; rewrite image_prompt_shape;
    repeat first
      [ rewrite contains_lower_nl by reflexivity
      | rewrite contains_lower_nl_head by reflexivity
      | rewrite contains_lower_colon by reflexivity
      | rewrite contains_lower_blank_head by reflexivity ];
    simpl; now rewrite orb_false_r.
Qed.

Lemma first_response_ext (table : list (string * string)) (a b : string) :
  (forall k, In k (map fst table) -> contains k a = contains k b) ->
  first_response table a = first_response table b.
Proof.
  induction table as [|[k r] table IH]; intros H; simpl; [reflexivity|].
  rewrite (H k) by now left.
  rewrite IH; [reflexivity|]. intros k' Hk'. apply H. now right.
Qed.

(** X6. On the image path the fixed text of the prompt triggers nothing
    and no trigger can lie across its parts: the canned reply is the one
    the responder chooses for the image description followed, on a new
    line, by the user text, and when it chooses none the reply is the
    default echo of the whole prompt, which carries both. *)
Theorem image_path_reply (text_input image_analysis : string) :
  _generate_response_with_image text_input image_analysis
  = match first_response responses
            (lower (image_analysis ++ nl ++ text_input)) with
    | Some reply => reply
    | None => default_echo (image_prompt text_input image_analysis)
    end /\
  contains text_input
    (default_echo (image_prompt text_input image_analysis)) = true /\
  contains image_analysis
    (default_echo (image_prompt text_input image_analysis)) = true.
Proof.
  split; [|split].
  - change (_generate_response_with_image text_input image_analysis)
      with (_generate_text_response (image_prompt text_input image_analysis)).
    unfold _generate_text_response.
    rewrite (first_response_ext responses
               (lower (image_prompt text_input image_analysis))
               (lower (image_analysis ++ nl ++ text_input))); [reflexivity|].
    intros k Hk. rewrite (image_prompt_occurrences k _ _ Hk).
    symmetry. apply contains_lower_nl.
    destruct Hk as [<-|[<-|[<-|[<-|[]]]]]; reflexivity.
  - apply contains_spec.
    exists ("I understand you're asking about: Image Analysis: "
            ++ image_analysis ++ nl ++ nl ++ "User Question: "),
           (nl ++ nl
            ++ "Please provide a response based on the image analysis."
            ++ ". I can help you analyze this using available data and models.").
    unfold default_echo, image_prompt. now rewrite !append_assoc.
  - apply contains_spec.
    exists "I understand you're asking about: Image Analysis: ",
           (nl ++ nl ++ "User Question: " ++ text_input ++ nl ++ nl
            ++ "Please provide a response based on the image analysis."
            ++ ". I can help you analyze this using available data and models.").
    unfold default_echo, image_prompt. now rewrite !append_assoc.
Qed.

End MorePromptFacts.

Lemma csv_path_reply_witness :
  csv_results_of Re.engine sample_model "abc" true <> [] /\
  generate_response Re.engine sample_str_of_dict sample_model no_files
    "abc" None true <> what_reply.
Proof.
  split; [vm_compute; discriminate|].
  apply (csv_path_reply sample_str_of_dict Re.engine sample_model no_files
           "abc" None true).
  vm_compute; discriminate.
Defined.

(** ** [analyze_image], the usual case *)

Section MoreAnalyzerFacts.

Import PyStr.

#[local] Arguments String.append !s1 s2 : simpl nomatch.

Lemma take_append (a b : string) : take (String.length a) (a ++ b) = a.
Proof. induction a as [|x a IH]; simpl; [now destruct b | now rewrite IH]. Qed.

Lemma find_from_line_break (line after : string) :
  contains nl line = false ->
  find_from nl (line ++ nl ++ after) = Some (String.length line).
Proof.
  induction line as [|x line IH]; intros H; [reflexivity|].
  unfold nl in *. cbn [contains startswith] in H.
  apply orb_false_iff in H as [Hx Hl].
  cbn [String.append find_from startswith]. rewrite Hx.
  specialize (IH Hl). cbn [String.append] in IH.
  cbn [String.length]. now rewrite IH.
Qed.

(** The text before the first occurrence holds no occurrence. *)
Lemma partition_before_clean (k s before rest : string) :
  k <> "" ->
  partition k s = Some (before, rest) -> contains k before = false.
Proof.
  intros Hk. revert before.
  induction s as [|x s IH]; intros before; simpl.
  - destruct (startswith k "") eqn:Hs; [|discriminate].
    intros [= <- <-]. destruct k; [contradiction | reflexivity].
  - destruct (startswith k (String x s)) eqn:Hs.
    + intros [= <- <-]. destruct k; [contradiction | reflexivity].
    + destruct (partition k s) as [[a b]|] eqn:Hp; [|discriminate].
      intros [= <- <-].
      change (contains k (String x a))
        with (startswith k (String x a) || contains k a).
      rewrite (IH a eq_refl), orb_false_r.
      destruct (startswith k (String x a)) eqn:Hxa; [|reflexivity].
      apply partition_spec in Hp as [-> _].
      pose proof (startswith_append_l k (String x a) (k ++ b) Hxa) as Hc.
      change (String x a ++ k ++ b) with (String x (a ++ k ++ b)) in Hc.
      congruence.
Qed.

(** The slice taken by [analyze_image] when a line break follows the
    marker. *)
Lemma slice_to_line_break (marker before line after : string) :
  contains nl line = false ->
  let rest := line ++ nl ++ after in
  let content := before ++ marker ++ rest in
  let desc_start := Z.of_nat (String.length before) + len marker in
  find nl content desc_start = desc_start + len line /\
  slice content desc_start (desc_start + len line) = line.
Proof.
  intros Hline rest content desc_start.
  assert (Hlen : len content = desc_start + len rest).
  { unfold content, desc_start, len. rewrite !length_append. lia. }
  assert (Hrest : len rest = len line + 1 + len after).
  { unfold rest, len, nl. rewrite !length_append. cbn [String.length]. lia. }
  assert (Hdrop : drop (Z.to_nat desc_start) content = rest).
  { unfold desc_start, content, len.
    replace (Z.to_nat (Z.of_nat (String.length before)
                       + Z.of_nat (String.length marker)))
      with (String.length (before ++ marker))
      by (rewrite length_append; lia).
    rewrite <- append_assoc. apply drop_append. }
  pose proof (find_from_line_break line after Hline) as Hfind.
  fold rest in Hfind.
  assert (H0 : 0 <= desc_start) by (unfold desc_start, len; lia).
  assert (H1 : 0 <= len line) by (unfold len; lia).
  assert (H2 : 0 <= len after) by (unfold len; lia).
  split.
  - unfold find. rewrite Hdrop, Hfind.
    replace (len content <? desc_start) with false
      by (symmetry; apply Z.ltb_ge; lia).
    unfold len. lia.
  - unfold slice, clamp. rewrite Hlen, Hrest.
    replace (desc_start <? 0) with false by (symmetry; apply Z.ltb_ge; lia).
    replace (desc_start + len line <? 0) with false
      by (symmetry; apply Z.ltb_ge; lia).
    replace (Z.max 0 (Z.min (desc_start + (len line + 1 + len after)) desc_start))
      with desc_start by lia.
    replace (Z.max 0 (Z.min (desc_start + (len line + 1 + len after))
                        (desc_start + len line)))
      with (desc_start + len line) by lia.
    rewrite Hdrop.
    replace (Z.to_nat (desc_start + len line - desc_start))
      with (String.length line) by (unfold len; lia).
    apply take_append.
Qed.

(** X7. For a [.txt] path whose content has the marker and a line break
    after it, the description returned is the text between the first
    marker and the first line break after it, stripped of the white space
    around it. *)
Theorem description_up_to_line_break (fs : FileSystem)
    (path content before rest line after : string)
    (Htxt : endswith ".txt" path = true)
    (Hread : read_text fs path = Ok content)
    (Hmark : partition "Description:" content = Some (before, rest))
    (Hline : partition nl rest = Some (line, after)) :
  analyze_image fs path = strip line.
Proof.
  unfold analyze_image. rewrite Htxt, Hread.
  rewrite (partition_contains _ _ _ _ Hmark).
  destruct (partition_spec _ _ _ _ Hmark) as [Hcontent Hfind].
  destruct (partition_spec _ _ _ _ Hline) as [Hrest Hfirst].
  assert (Hclean : contains nl line = false)
    by (apply (partition_before_clean nl rest line after); [discriminate | exact Hline]).
  assert (Hstart : find "Description:" content 0
                   = Z.of_nat (String.length before)).
  { unfold find. rewrite drop_zero, Hfind.
    replace (len content <? 0) with false
      by (symmetry; apply Z.ltb_ge; unfold len; lia).
    lia. }
  rewrite Hstart, Hcontent, Hrest.
  destruct (slice_to_line_break "Description:" before line after Hclean)
    as [-> ->].
  reflexivity.
Qed.

End MoreAnalyzerFacts.

Lemma description_up_to_line_break_witness :
  partition nl (" a cat" ++ nl ++ "Size: 3") = Some (" a cat", "Size: 3") /\
  analyze_image
    (with_text_file no_files "p.txt" ("Kind: photo" ++ nl ++ "Description: a cat" ++ nl
                            ++ "Size: 3"))
    "p.txt"
  = "a cat".
Proof.
  split; [reflexivity|].
  apply (description_up_to_line_break
           (with_text_file no_files "p.txt" ("Kind: photo" ++ nl ++ "Description: a cat"
                                   ++ nl ++ "Size: 3"))
           "p.txt"
           ("Kind: photo" ++ nl ++ "Description: a cat" ++ nl ++ "Size: 3")
           ("Kind: photo" ++ nl) (" a cat" ++ nl ++ "Size: 3")
           " a cat" "Size: 3");
    reflexivity.
Defined.

(** ** Sessions: [add_message], [chat], [get_history], [clear_history],
    [home] *)

(** X8. While a session has room, nothing is lost: when the turns it
    holds and the turns appended are at most 50 together, its list
    afterwards is the old list followed by the new turns. *)
Theorem session_with_room_keeps_all (cs : ChatSession) (ts : list Turn)
    (Hroom : (length (messages cs) + length ts <= 50)%nat) :
  messages (append_turns cs ts) = (messages cs ++ map message_of ts)%list.
Proof.
  destruct ts as [|t ts]; [now rewrite app_nil_r|].
  rewrite append_turns_messages by discriminate.
  apply last_items_all. rewrite length_app, length_map. exact Hroom.
Qed.

Lemma session_with_room_keeps_all_witness :
  (length (messages sample_session) + length (map sample_turn (seq 0 7))
   <= 50)%nat /\
  messages (append_turns sample_session (map sample_turn (seq 0 7)))
  = map message_of (map sample_turn (seq 0 7)).
Proof.
  split; [vm_compute; lia|].
  apply (session_with_room_keeps_all sample_session (map sample_turn (seq 0 7))).
  vm_compute; lia.
Defined.

Section MoreChatFacts.

Import PyStr.

#[local] Arguments String.append !s1 s2 : simpl nomatch.

Variable generate :
  FileSystem -> string -> option string -> bool -> result string.

Variable save_upload : FileSystem -> string -> string -> FileSystem * result unit.

Lemma ensure_session_other (w : World) (now : datetime) (sid sid' : string) :
  sid <> sid' ->
  chat_sessions (ensure_session w now sid) !! sid' = chat_sessions w !! sid'.
Proof.
  intros Hne. unfold ensure_session.
  destruct (chat_sessions w !! sid); [reflexivity|].
  cbn. now apply lookup_insert_ne.
Qed.

Lemma ensure_session_history (w : World) (now : datetime) (sid : string) :
  exists cs,
    chat_sessions (ensure_session w now sid) !! sid = Some cs /\
    messages cs = get_history w (Some sid).
Proof.
  unfold ensure_session, get_history.
  destruct (chat_sessions w !! sid) as [cs|] eqn:H.
  - exists cs. now rewrite H.
  - exists (new_session sid now). split; [|reflexivity].
    cbn. apply lookup_insert_eq.
Qed.

(** X9. A call of [chat] changes the session of its caller only: the
    entry of every other session identifier, and so its history, is after
    the call what it was before, whatever the outcome of the call. *)
Theorem chat_touches_one_session (w : World) (clock : Clock)
    (req : ChatRequest) (other : string)
    (Hother : cookie_session_id req <> Some other) :
  chat_sessions (fst (chat generate save_upload w clock req)) !! other
  = chat_sessions w !! other /\
  get_history (fst (chat generate save_upload w clock req)) (Some other)
  = get_history w (Some other).
Proof.
  assert (Hsame :
    chat_sessions (fst (chat generate save_upload w clock req)) !! other
    = chat_sessions w !! other).
  { unfold chat.
    destruct (cookie_session_id req) as [sid|]; [|reflexivity].
    assert (Hne : sid <> other) by congruence.
    destruct (negb (truthy (request_message req))
              && negb (file_truthy (files_image req))).
    - cbn [fst]. now apply ensure_session_other.
    - unfold chat_turn.
      destruct (upload _ _ _ _ _) as [fs [path|e]].
      + destruct (generate _ _ _ _); cbn;
          rewrite !lookup_insert_ne by exact Hne;
          now apply ensure_session_other.
      + cbn. now apply ensure_session_other. }
  split; [exact Hsame|]. unfold get_history. now rewrite Hsame.
Qed.

(** X10. A call of [chat] whose input is accepted, whose upload step
    returns and whose generator returns a reply adds two turns to the
    caller's history, the user turn with the stripped message and the path
    of the upload, then the assistant turn with the reply, and keeps the
    last 50; the reply of the call carries the same text and the flag read
    from the form. *)
Theorem chat_records_both_turns (w : World) (clock : Clock)
    (req : ChatRequest) (sid reply : string) (fs : FileSystem)
    (path : option string)
    (Hcookie : cookie_session_id req = Some sid)
    (Hinput : truthy (request_message req) || file_truthy (files_image req)
              = true)
    (Hupload : upload save_upload (files w) (at_upload clock) sid
                 (files_image req)
               = (fs, Ok path))
    (Hreply : generate fs (request_message req) path (request_use_csv req)
              = Ok reply) :
  get_history (fst (chat generate save_upload w clock req)) (Some sid)
  = last_items 50
      (get_history w (Some sid)
       ++ [ user_turn clock req path; assistant_turn clock req reply ]) /\
  files (fst (chat generate save_upload w clock req)) = fs /\
  exists n,
    snd (chat generate save_upload w clock req)
    = Ok {| body := ChatReply true reply sid n (request_use_csv req);
            status := 200 |}.
Proof.
  unfold chat. rewrite Hcookie.
  replace (negb (truthy (request_message req))
           && negb (file_truthy (files_image req))) with false
    by (rewrite <- negb_orb, Hinput; reflexivity).
  unfold chat_turn. rewrite ensure_session_files, Hupload, Hreply.
  destruct (ensure_session_history w (at_session clock) sid)
    as (cs0 & -> & Hold).
  cbn [fst snd]. split; [|split; [reflexivity | eexists; reflexivity]].
  unfold get_history at 1. cbn [chat_sessions store].
  rewrite lookup_insert_eq, !add_message_messages, last_items_app, Hold.
  now rewrite <- app_assoc.
Qed.

Lemma startswith_slash_prefix (sid tail : string) :
  startswith "/" (sid ++ "_" ++ tail) = startswith "/" sid.
Proof. destruct sid as [|c sid]; reflexivity. Qed.

(** X11. For an upload with a file name, the environment is asked to
    write the uploaded content at one path: the name made of the session
    identifier, the time stamp and the file name, under the directory of
    the uploads, unless the session identifier begins with a slash, in
    which case that name alone is the path.  The upload step returns that
    path when the write returns, and raises what the write raises. *)
Theorem upload_is_saved_under_session_name (fs : FileSystem) (now : datetime)
    (sid : string) (f : FileStorage)
    (Hname : filename f <> "") :
  let name := sid ++ "_" ++ compact now ++ "_" ++ filename f in
  let path := if startswith "/" sid then name else "static/uploads/" ++ name in
  upload save_upload fs now sid (Some f)
  = (fst (save_upload fs path (payload f)),
     match snd (save_upload fs path (payload f)) with
     | Ok _ => Ok (Some path)
     | Raise e => Raise e
     end).
Proof.
  intros name path.
  assert (Hpath : path_join "static/uploads" name = path).
  { unfold path_join, path, name. rewrite startswith_slash_prefix.
    destruct (startswith "/" sid); reflexivity. }
  unfold upload. destruct (filename f) eqn:Hf; [contradiction|].
  cbn [truthy]. fold name. rewrite Hpath.
  now destruct (save_upload fs path (payload f)) as [fs' [[]|e]].
Qed.

(** X19. An exception of the upload step leaves [chat]: the call raises
    it, and the caller's history is what it was, no turn being added. *)
Theorem chat_propagates_upload_failure (w : World) (clock : Clock)
    (req : ChatRequest) (sid e : string) (fs : FileSystem)
    (Hcookie : cookie_session_id req = Some sid)
    (Hinput : truthy (request_message req) || file_truthy (files_image req)
              = true)
    (Hupload : upload save_upload (files w) (at_upload clock) sid
                 (files_image req)
               = (fs, Raise e)) :
  snd (chat generate save_upload w clock req) = Raise e /\
  get_history (fst (chat generate save_upload w clock req)) (Some sid)
  = get_history w (Some sid) /\
  files (fst (chat generate save_upload w clock req)) = fs.
Proof.
  unfold chat. rewrite Hcookie.
  replace (negb (truthy (request_message req))
           && negb (file_truthy (files_image req))) with false
    by (rewrite <- negb_orb, Hinput; reflexivity).
  unfold chat_turn. rewrite ensure_session_files, Hupload.
  cbn [fst snd files]. split; [reflexivity|]. split; [|reflexivity].
  destruct (ensure_session_history w (at_session clock) sid)
    as (cs0 & Hcs0 & Hold).
  unfold get_history at 1. cbn [chat_sessions]. now rewrite Hcs0.
Qed.

End MoreChatFacts.

Lemma chat_touches_one_session_witness :
  get_history
    (fst (chat echo_generator sample_disk sample_world sample_clock
            upload_request))
    (Some "s2")
  = get_history sample_world (Some "s2").
Proof.
  apply (chat_touches_one_session echo_generator sample_disk sample_world
           sample_clock upload_request "s2").
  discriminate.
Defined.

Lemma chat_records_both_turns_witness :
  get_history
    (fst (chat echo_generator sample_disk sample_world sample_clock
            upload_request))
    (Some "s1")
  = PyStr.last_items 50
      (get_history sample_world (Some "s1")
       ++ [ user_turn sample_clock upload_request
              (Some "static/uploads/s1_20240101_000000_shot.png");
            assistant_turn sample_clock upload_request "look" ]).
Proof.
  apply (chat_records_both_turns echo_generator sample_disk sample_world
           sample_clock upload_request "s1" "look"
           (with_text_file no_files
              "static/uploads/s1_20240101_000000_shot.png" "PNG")
           (Some "static/uploads/s1_20240101_000000_shot.png"));
    reflexivity.
Defined.

Lemma upload_is_saved_under_session_name_witness :
  snd (upload sample_disk no_files epoch "s1"
         (Some {| filename := "shot.png"; payload := "PNG" |}))
  = Ok (Some "static/uploads/s1_20240101_000000_shot.png").
Proof.
  rewrite (upload_is_saved_under_session_name sample_disk no_files epoch "s1"
             {| filename := "shot.png"; payload := "PNG" |}).
  - reflexivity.
  - discriminate.
Defined.

Lemma chat_propagates_upload_failure_witness :
  snd (chat echo_generator sample_disk sample_world sample_clock
         nested_upload_request)
  = Raise "[Errno 2] No such file or directory" /\
  get_history
    (fst (chat echo_generator sample_disk sample_world sample_clock
            nested_upload_request))
    (Some "s1")
  = [].
Proof.
  destruct (chat_propagates_upload_failure echo_generator sample_disk
              sample_world sample_clock nested_upload_request "s1"
              "[Errno 2] No such file or directory" no_files
              eq_refl eq_refl eq_refl)
    as (Hraise & Hhistory & _).
  split; [exact Hraise | exact Hhistory].
Defined.

(** X12. After [clear_history] the caller's history is empty, whatever
    it held; no session is added or removed, and the history of every
    other caller is what it was. *)
Theorem clear_history_empties_one_session (w : World)
    (cookie other : option string)
    (Hother : other <> cookie) :
  get_history (clear_history w cookie) cookie = [] /\
  get_history (clear_history w cookie) other = get_history w other /\
  dom (chat_sessions (clear_history w cookie)) = dom (chat_sessions w).
Proof.
  unfold clear_history, get_history.
  destruct cookie as [sid|]; [|repeat split; now destruct other].
  destruct (chat_sessions w !! sid) as [cs|] eqn:Hsid.
  - cbn [chat_sessions store]. rewrite lookup_insert_eq.
    split; [reflexivity|]. split.
    + destruct other as [sid'|]; [|reflexivity].
      rewrite lookup_insert_ne by congruence. reflexivity.
    + rewrite dom_insert_L.
      apply subseteq_union_1_L, singleton_subseteq_l, elem_of_dom. eauto.
  - rewrite Hsid. repeat split.
Qed.

Lemma clear_history_empties_one_session_witness :
  get_history
    (clear_history
       (fst (chat echo_generator sample_disk sample_world sample_clock
             upload_request))
       (Some "s1"))
    (Some "s1")
  = [].
Proof.
  apply (clear_history_empties_one_session
           (fst (chat echo_generator sample_disk sample_world sample_clock
             upload_request))
           (Some "s1") None).
  discriminate.
Defined.

(** X13. [home] gives a caller without a session a new one, registered
    with an empty history, and leaves a caller with a session and the
    whole state as they are; in both cases the history of every session
    identifier other than the new one is unchanged. *)
Theorem home_keeps_histories (w : World) (cookie : option string)
    (fresh : string) (now : datetime) (sid : string)
    (Hsid : sid <> fresh) :
  get_history (fst (home w cookie fresh now)) (Some sid)
  = get_history w (Some sid) /\
  (cookie = None ->
   snd (home w cookie fresh now) = Some fresh /\
   get_history (fst (home w cookie fresh now)) (Some fresh) = []) /\
  (cookie <> None -> home w cookie fresh now = (w, cookie)).
Proof.
  unfold home, get_history. destruct cookie as [c|].
  - cbn [fst snd]. split; [reflexivity|]. split.
    + intros H. discriminate H.
    + intros _. reflexivity.
  - cbn [fst snd chat_sessions store].
    rewrite lookup_insert_ne by congruence.
    rewrite lookup_insert_eq.
    split; [reflexivity|]. split.
    + intros _. split; reflexivity.
    + intros H. now contradiction H.
Qed.

Lemma home_keeps_histories_witness :
  get_history (fst (home sample_world None "s9" epoch)) (Some "s1")
  = get_history sample_world (Some "s1").
Proof.
  destruct (home_keeps_histories sample_world None "s9" epoch "s1")
    as [H _]; [discriminate | exact H].
Defined.

(** ** Loading the tables: [load_csv_data], [reload_csv], [get_csv_data] *)

Section LoadFacts.

Import PyStr.

Lemma dict_set_keys {V} (k : string) (v : V) (d : list (string * V))
    (k' : string) :
  In k' (map fst (dict_set k v d)) <-> k' = k \/ In k' (map fst d).
Proof.
  induction d as [|[k0 v0] d IH]; simpl.
  - intuition congruence.
  - destruct (String.eqb_spec k0 k) as [->|Hne]; simpl.
    + intuition congruence.
    + rewrite IH. tauto.
Qed.

Lemma dict_set_nodup {V} (k : string) (v : V) (d : list (string * V)) :
  NoDup (map fst d) -> NoDup (map fst (dict_set k v d)).
Proof.
  induction d as [|[k0 v0] d IH]; simpl; intros Hd.
  - apply NoDup_singleton.
  - apply NoDup_cons in Hd as [Hnotin Hrest].
    destruct (String.eqb_spec k0 k) as [->|Hne]; simpl.
    + now apply NoDup_cons.
    + apply NoDup_cons. split; [|now apply IH].
      rewrite list_elem_of_In, dict_set_keys.
      intros [Heq|Hin]; [congruence|].
      now apply Hnotin, list_elem_of_In.
Qed.

Lemma dict_set_in {V} (k : string) (v : V) (d : list (string * V))
    (k' : string) (v' : V) :
  NoDup (map fst d) ->
  In (k', v') (dict_set k v d)
  <-> (k' = k /\ v' = v) \/ (k' <> k /\ In (k', v') d).
Proof.
  induction d as [|[k0 v0] d IH]; simpl; intros Hd.
  - split.
    + intros [[= <- <-]|[]]. now left.
    + intros [[-> ->]|[_ []]]. now left.
  - apply NoDup_cons in Hd as [Hnotin Hrest].
    assert (Hkeys : forall x, In (k0, x) d -> False).
    { intros x Hx. apply Hnotin, list_elem_of_In.
      change k0 with (fst (k0, x)). now apply in_map. }
    destruct (String.eqb_spec k0 k) as [->|Hne]; simpl.
    + split.
      * intros [[= <- <-]|Hin]; [now left|].
        right. split; [|now right].
        intros ->. exact (Hkeys v' Hin).
      * intros [[-> ->]|[Hk [[= -> ->]|Hin]]];
          [now left | contradiction | now right].
    + rewrite (IH Hrest). split.
      * intros [[= <- <-]|[[-> ->]|[Hk Hin]]].
        -- right. split; [exact Hne | now left].
        -- now left.
        -- right. split; [exact Hk | now right].
      * intros [[-> ->]|[Hk [[= <- <-]|Hin]]].
        -- right. now left.
        -- now left.
        -- right. right. now split.
Qed.

Variable dir : DataDir.

Lemma load_file_step (seen : list string) (csv : list (string * DataFrame))
    (file : string) :
  loaded_from dir seen csv ->
  loaded_from dir (seen ++ [file]) (load_file dir csv file).
Proof.
  intros [Hnd Hin]. unfold load_file.
  destruct (endswith ".csv" file) eqn:Hcsv;
    [destruct (read_csv dir file) as [df0|e] eqn:Hread|].
  - split; [now apply dict_set_nodup|].
    intros f df. rewrite (dict_set_in file df0 csv f df Hnd), Hin, in_app_iff.
    simpl. split.
    + intros [[-> ->]|[Hne (Hseen & He & Hr)]]; [|tauto].
      split; [right; now left | now split].
    + intros ([Hseen|[<-|[]]] & He & Hr).
      * destruct (String.eqb_spec f file) as [->|Hne].
        -- left. split; [reflexivity | congruence].
        -- right. tauto.
      * left. split; [reflexivity | congruence].
  - split; [exact Hnd|].
    intros f df. rewrite Hin, in_app_iff. simpl. split; [tauto|].
    intros ([Hseen|[<-|[]]] & He & Hr); [tauto | congruence].
  - split; [exact Hnd|].
    intros f df. rewrite Hin, in_app_iff. simpl. split; [tauto|].
    intros ([Hseen|[<-|[]]] & He & Hr); [tauto | congruence].
Qed.

Lemma load_files_spec (entries : list string) :
  forall seen csv,
    loaded_from dir seen csv ->
    loaded_from dir (seen ++ entries) (fold_left (load_file dir) entries csv).
Proof.
  induction entries as [|file entries IH]; intros seen csv H; simpl.
  - now rewrite app_nil_r.
  - replace (seen ++ file :: entries)%list
      with ((seen ++ [file]) ++ entries)%list
      by (now rewrite <- app_assoc).
    apply IH, load_file_step, H.
Qed.

Lemma loaded_from_nothing : loaded_from dir [] [].
Proof.
  split; [constructor|]. intros f df. simpl. tauto.
Qed.


(** X14. When the directory exists and can be listed, the mapping loaded
    holds, under distinct names, exactly the listed files whose name ends
    in [.csv] and that [read_csv] accepts, each with the table read; a
    file that fails to parse is left out and does not disturb the others. *)
Theorem loaded_tables_are_the_readable_csv_files (entries : list string)
    (Hexists : dir_exists dir = true)
    (Hlist : listdir dir = Ok entries) :
  exists csv,
    load_csv_data dir = Ok (csv, dir) /\
    NoDup (map fst csv) /\
    forall f df,
      In (f, df) csv
      <-> In f entries /\ endswith ".csv" f = true /\ read_csv dir f = Ok df.
Proof.
  exists (fold_left (load_file dir) entries []).
  unfold load_csv_data. rewrite Hexists, Hlist.
  split; [reflexivity|].
  exact (load_files_spec entries [] [] loaded_from_nothing).
Qed.


Variable E : RegexEngine.


End LoadFacts.

Lemma loaded_tables_are_the_readable_csv_files_witness :
  exists csv,
    load_csv_data sample_dir = Ok (csv, sample_dir) /\
    NoDup (map fst csv) /\
    forall f df,
      In (f, df) csv
      <-> In f ["items.csv"; "notes.txt"; "broken.csv"] /\
          PyStr.endswith ".csv" f = true /\ read_csv sample_dir f = Ok df.
Proof.
  apply (loaded_tables_are_the_readable_csv_files sample_dir
           ["items.csv"; "notes.txt"; "broken.csv"]);
    reflexivity.
Defined.


Lemma image_alone_with_tables_is_canned_witness :
  text_value_reached sample_model "items.csv" sample_frame "name" 0 "abc" /\
  In (generate_response Re.engine sample_str_of_dict sample_model
        placeholder_files "" (Some "static/uploads/shot.txt") true)
     [hello_reply; hi_reply; help_reply].
Proof.
  assert (Hcell : text_value_reached sample_model "items.csv" sample_frame
                    "name" 0 "abc").
  { split; [now left|].
    exists [VStr "abc"; VNaN; VStr "Delta"]. split; [now left | reflexivity]. }
  split; [exact Hcell|].
  apply (image_alone_with_tables_is_canned sample_str_of_dict Re.engine
           sample_model placeholder_files (Some "static/uploads/shot.txt")
           "items.csv" "name" "abc" sample_frame 0
           reference_engine_sound Hcell).
Defined.

(** ** An invariant of the registry *)

Section RegistryFacts.

Variable generate :
  FileSystem -> string -> option string -> bool -> result string.

Variable save_upload : FileSystem -> string -> string -> FileSystem * result unit.

Lemma add_message_kept (cs : ChatSession) (now : datetime) (r : Role)
    (text : string) (path : option string) (used : bool) :
  session_id (add_message cs now r text path used) = session_id cs /\
  (length (messages (add_message cs now r text path used)) <= 50)%nat.
Proof.
  split; [reflexivity|].
  rewrite add_message_messages, last_items_length. lia.
Qed.

Lemma store_well_kept (w : World) (sid : string) (cs : ChatSession) :
  well_kept w -> session_id cs = sid -> (length (messages cs) <= 50)%nat ->
  well_kept (store w sid cs).
Proof.
  intros Hw Hid Hlen sid' cs'. cbn [chat_sessions store].
  destruct (decide (sid = sid')) as [<-|Hne].
  - rewrite lookup_insert_eq. intros [= <-]. now split.
  - rewrite lookup_insert_ne by exact Hne. apply Hw.
Qed.

Lemma ensure_session_well_kept (w : World) (now : datetime) (sid : string) :
  well_kept w -> well_kept (ensure_session w now sid).
Proof.
  intros Hw. unfold ensure_session.
  destruct (chat_sessions w !! sid); [exact Hw|].
  apply store_well_kept; [exact Hw | reflexivity | simpl; lia].
Qed.

(** X18. The handlers keep the registry in order: if every session is
    filed under its own identifier and holds at most 50 turns, the same is
    true after [home], after [chat], whatever its outcome, and after
    [clear_history]; and it is true of the empty registry. *)
Theorem handlers_keep_the_registry (w : World) (clock : Clock)
    (req : ChatRequest) (cookie : option string) (fresh : string)
    (now : datetime)
    (Hkept : well_kept w) :
  well_kept (fst (chat generate save_upload w clock req)) /\
  well_kept (fst (home w cookie fresh now)) /\
  well_kept (clear_history w cookie) /\
  well_kept empty_world.
Proof.
  split; [|split; [|split]].
  - unfold chat. destruct (cookie_session_id req) as [sid|]; [|exact Hkept].
    pose proof (ensure_session_well_kept w (at_session clock) sid Hkept) as H0.
    destruct (ensure_session_lookup w (at_session clock) sid) as [cs0 Hcs0].
    destruct (H0 sid cs0 Hcs0) as [Hid0 _].
    destruct (negb (truthy (request_message req))
              && negb (file_truthy (files_image req))); [exact H0|].
    unfold chat_turn. rewrite Hcs0.
    destruct (upload _ _ _ _ _) as [fs [path|e]];
      [|intros sid' cs'; apply H0].
    destruct (generate _ _ _ _) as [reply|e]; cbn [fst];
      (apply store_well_kept;
       [ apply store_well_kept;
         [ intros sid' cs'; apply H0
         | exact Hid0
         | apply add_message_kept ]
       | exact Hid0
       | apply add_message_kept ]).
  - unfold home. destruct cookie as [c|]; [exact Hkept|].
    cbn [fst]. apply store_well_kept; [exact Hkept | reflexivity | simpl; lia].
  - unfold clear_history. destruct cookie as [c|]; [|exact Hkept].
    destruct (chat_sessions w !! c) as [cs|] eqn:Hc; [|exact Hkept].
    apply store_well_kept; [exact Hkept | | simpl; lia].
    now destruct (Hkept c cs Hc).
  - intros sid cs H. cbn in H. rewrite lookup_empty in H. discriminate.
Qed.

End RegistryFacts.

Lemma handlers_keep_the_registry_witness :
  well_kept
    (fst (chat echo_generator sample_disk empty_world sample_clock
            upload_request)).
Proof.
  apply (handlers_keep_the_registry echo_generator sample_disk empty_world
           sample_clock upload_request None "s9" epoch).
  intros sid cs H. cbn in H. rewrite lookup_empty in H. discriminate.
Defined.
